(** * Fibo-3d-2d: sprite playback and 3D job polling

    A shallow embedding of the client-side core of the repository:
    - [components/sprite/SpriteAnimator.tsx]: frame extraction from a sprite
      sheet, the display-synchronised animation loop and the navigation
      handlers;
    - [services/api.ts]: [getOutputUrl], [generateSprite], [get3DJobStatus]
      and the bounded polling loop of [generate3D];
    - [pages/Generator.tsx]: [handleGenerate] with its error
      classification and step updates, the backend check and the
      animation selection;
    - [store/useAppStore.ts]: the progress steps.

    Part I holds the definitions, Part II the theorems. *)

From Stdlib Require Import ZArith List String Ascii Bool Lia.
From Stdlib Require Import DecimalString.
Import ListNotations.

Open Scope string_scope.
Open Scope Z_scope.

(* ===================================================================== *)
(** * Part I: definitions *)
(* ===================================================================== *)

(** ** JavaScript numbers

    The numbers the modelled code computes with are integers (pixel sizes,
    frame counts and frame indices), a division by zero apart.  [jsnum]
    is the integers together with the three non-finite values.  Integers
    stay far below 2^53, so their arithmetic is exact; the sign of zero is
    not tracked. *)
Module JsNum.

Inductive jsnum : Type :=
| Num (z : Z)
| PosInf
| NegInf
| NaN.

(** Truthiness, as used by [a || b]: [0] and [NaN] are falsy. *)
Definition truthy (n : jsnum) : bool :=
  match n with
  | Num z => negb (z =? 0)
  | NaN => false
  | PosInf | NegInf => true
  end.

Definition neg (a : jsnum) : jsnum :=
  match a with
  | Num x => Num (- x)
  | PosInf => NegInf
  | NegInf => PosInf
  | NaN => NaN
  end.

Definition add (a b : jsnum) : jsnum :=
  match a, b with
  | Num x, Num y => Num (x + y)
  | NaN, _ | _, NaN => NaN
  | PosInf, NegInf | NegInf, PosInf => NaN
  | PosInf, _ | _, PosInf => PosInf
  | NegInf, _ | _, NegInf => NegInf
  end.

Definition sub (a b : jsnum) : jsnum := add a (neg b).

Definition sgn_inf (positive : bool) : jsnum :=
  if positive then PosInf else NegInf.

Definition mul (a b : jsnum) : jsnum :=
  match a, b with
  | Num x, Num y => Num (x * y)
  | NaN, _ | _, NaN => NaN
  | Num x, PosInf | PosInf, Num x =>
      if x =? 0 then NaN else sgn_inf (0 <? x)
  | Num x, NegInf | NegInf, Num x =>
      if x =? 0 then NaN else sgn_inf (x <? 0)
  | PosInf, PosInf | NegInf, NegInf => PosInf
  | PosInf, NegInf | NegInf, PosInf => NegInf
  end.

(** [a % b]: the remainder has the sign of the dividend. *)
Definition rem (a b : jsnum) : jsnum :=
  match a, b with
  | Num x, Num y => if y =? 0 then NaN else Num (Z.rem x y)
  | Num x, (PosInf | NegInf) => Num x
  | _, _ => NaN
  end.

(** [Math.floor(a / b)] on integers. *)
Definition floorDiv (a b : Z) : jsnum :=
  if b =? 0 then
    if a =? 0 then NaN else sgn_inf (0 <? a)
  else Num (a / b).

(** [a || b] on an optional number ([undefined] is falsy). *)
Definition orElse (a : option Z) (b : jsnum) : jsnum :=
  match a with
  | Some x => if truthy (Num x) then Num x else b
  | None => b
  end.

End JsNum.
Import JsNum.

(** ** The sprite animator component *)
Module SpriteAnimator.

(** The props that stay with the component. [speed] is in milliseconds per
    frame; [externalIsPlaying] is [None] when the prop is [undefined]. *)
Record Props : Type := mkProps {
  gifUrl : string;
  sheetUrl : string;
  frameCount : Z;
  frameWidth : option Z;
  frameHeight : option Z;
  speed : Z;
  externalIsPlaying : option bool
}.

(** The callbacks of the parent; a callback acts by changing the props the
    parent passes at the next render. *)
Record Parent : Type := mkParent {
  onSpeedChange : option (Z -> Props -> Props);
  onPlayingChange : option (bool -> Props -> Props)
}.

Definition defaultProps (gif sheet : string) : Props :=
  {| gifUrl := gif; sheetUrl := sheet; frameCount := 6;
     frameWidth := None; frameHeight := None; speed := 100;
     externalIsPlaying := None |}.

(** No callbacks: the component owns its playing flag. *)
Definition standalone : Parent :=
  {| onSpeedChange := None; onPlayingChange := None |}.

Definition withPlaying (b : bool) (p : Props) : Props :=
  {| gifUrl := gifUrl p; sheetUrl := sheetUrl p; frameCount := frameCount p;
     frameWidth := frameWidth p; frameHeight := frameHeight p;
     speed := speed p; externalIsPlaying := Some b |}.

Definition withSpeed (v : Z) (p : Props) : Props :=
  {| gifUrl := gifUrl p; sheetUrl := sheetUrl p; frameCount := frameCount p;
     frameWidth := frameWidth p; frameHeight := frameHeight p;
     speed := v; externalIsPlaying := externalIsPlaying p |}.

(** The Generator page: [speed={animationSpeed}
    onSpeedChange={setAnimationSpeed} externalIsPlaying={isPlaying}
    onPlayingChange={setIsPlaying}], both backed by [useState]. *)
Definition generatorPage : Parent :=
  {| onSpeedChange := Some withSpeed; onPlayingChange := Some withPlaying |}.

Inductive ViewMode : Type := preview | sheet.

Definition ViewMode_eqb (a b : ViewMode) : bool :=
  match a, b with
  | preview, preview | sheet, sheet => true
  | _, _ => false
  end.

(** The decoded sheet: [img.width] and [img.height]. *)
Record Image : Type := mkImage { width : Z; height : Z }.

(** An extracted frame is the canvas after [drawImage]: the source
    rectangle of the sheet that was copied to it ([toDataURL] encodes
    exactly that canvas). *)
Record Frame : Type := mkFrame {
  sx : jsnum;
  sy : jsnum;
  sw : jsnum;
  sh : jsnum
}.

(** The state of the component: its [useState] cells and the
    [lastFrameTimeRef] ref.  Timestamps and [speed] share one unit.
    The zoom factor and the handle of the pending animation frame play no
    part in extraction or playback and are left out. *)
Record State : Type := mkState {
  internalIsPlaying : bool;
  viewMode : ViewMode;
  imgError : bool;
  currentFrame : jsnum;
  sheetDimensions : option (Z * Z);
  frames : list Frame;
  lastFrameTime : Z
}.

Definition initialState : State :=
  {| internalIsPlaying := true; viewMode := preview; imgError := false;
     currentFrame := Num 0; sheetDimensions := None; frames := [];
     lastFrameTime := 0 |}.

(** A mounted component: the props of the current render and the state. *)
Record Sys : Type := mkSys { props : Props; state : State }.

(** *** Loading the sheet *)

(** What the loading effect asks of the browser. *)
Inductive LoadRequest : Type :=
| NoRequest
| FetchImage (src : string) (crossOrigin : string).

(** The effect body up to [img.src = sheetUrl]: its one guard is
    [if (!sheetUrl) return]. *)
Definition loadEffect (p : Props) : LoadRequest :=
  if (sheetUrl p =? "")%string then NoRequest
  else FetchImage (sheetUrl p) "anonymous".

Definition calculatedFrameWidth (p : Props) (img : Image) : jsnum :=
  orElse (frameWidth p) (floorDiv (width img) (frameCount p)).

Definition calculatedFrameHeight (p : Props) (img : Image) : jsnum :=
  orElse (frameHeight p) (Num (height img)).

(** The canvas after [clearRect] and
    [drawImage(img, i * fw, 0, fw, fh, 0, 0, fw, fh)]. *)
Definition frameAt (fw fh : jsnum) (i : Z) : Frame :=
  {| sx := mul (Num i) fw; sy := Num 0; sw := fw; sh := fh |}.

(** [for (let i = 0; i < frameCount; i++) { ...; extractedFrames.push(..) }];
    [fuel] bounds the iterations that remain. *)
Fixpoint extractLoop (fuel : nat) (i count : Z) (fw fh : jsnum)
  (extractedFrames : list Frame) : list Frame :=
  match fuel with
  | O => extractedFrames
  | S fuel' =>
      if i <? count then
        extractLoop fuel' (i + 1) count fw fh
          (extractedFrames ++ [frameAt fw fh i])
      else extractedFrames
  end.

Definition extractFrames (p : Props) (img : Image) : list Frame :=
  extractLoop (Z.to_nat (frameCount p)) 0 (frameCount p)
    (calculatedFrameWidth p img) (calculatedFrameHeight p img) [].

Definition setSheetDimensions (d : Z * Z) (s : State) : State :=
  {| internalIsPlaying := internalIsPlaying s; viewMode := viewMode s;
     imgError := imgError s; currentFrame := currentFrame s;
     sheetDimensions := Some d; frames := frames s;
     lastFrameTime := lastFrameTime s |}.

Definition setFrames (fs : list Frame) (s : State) : State :=
  {| internalIsPlaying := internalIsPlaying s; viewMode := viewMode s;
     imgError := imgError s; currentFrame := currentFrame s;
     sheetDimensions := sheetDimensions s; frames := fs;
     lastFrameTime := lastFrameTime s |}.

Definition setImgError (b : bool) (s : State) : State :=
  {| internalIsPlaying := internalIsPlaying s; viewMode := viewMode s;
     imgError := b; currentFrame := currentFrame s;
     sheetDimensions := sheetDimensions s; frames := frames s;
     lastFrameTime := lastFrameTime s |}.

(** [img.onload]; [ctx] tells whether [canvas.getContext('2d')] gave a
    context. *)
Definition onload (p : Props) (ctx : bool) (img : Image) (s : State) : State :=
  let s1 := setSheetDimensions (width img, height img) s in
  if ctx then setFrames (extractFrames p img) s1 else s1.

(** [img.onerror]. *)
Definition onerror (s : State) : State := setImgError true s.

(** Widths of the extracted frames, summed. *)
Definition totalWidth (fs : list Frame) : jsnum :=
  fold_right (fun f acc => add (sw f) acc) (Num 0) fs.

(** *** Playback state and handlers *)

(** [externalIsPlaying !== undefined ? externalIsPlaying : internalIsPlaying] *)
Definition isPlaying (y : Sys) : bool :=
  match externalIsPlaying (props y) with
  | Some b => b
  | None => internalIsPlaying (state y)
  end.

Definition setInternalIsPlaying (b : bool) (s : State) : State :=
  {| internalIsPlaying := b; viewMode := viewMode s;
     imgError := imgError s; currentFrame := currentFrame s;
     sheetDimensions := sheetDimensions s; frames := frames s;
     lastFrameTime := lastFrameTime s |}.

(** [setCurrentFrame] with a functional update. *)
Definition setCurrentFrame (f : jsnum -> jsnum) (s : State) : State :=
  {| internalIsPlaying := internalIsPlaying s; viewMode := viewMode s;
     imgError := imgError s; currentFrame := f (currentFrame s);
     sheetDimensions := sheetDimensions s; frames := frames s;
     lastFrameTime := lastFrameTime s |}.

Definition setViewMode (m : ViewMode) (s : State) : State :=
  {| internalIsPlaying := internalIsPlaying s; viewMode := m;
     imgError := imgError s; currentFrame := currentFrame s;
     sheetDimensions := sheetDimensions s; frames := frames s;
     lastFrameTime := lastFrameTime s |}.

Definition setLastFrameTime (t : Z) (s : State) : State :=
  {| internalIsPlaying := internalIsPlaying s; viewMode := viewMode s;
     imgError := imgError s; currentFrame := currentFrame s;
     sheetDimensions := sheetDimensions s; frames := frames s;
     lastFrameTime := t |}.

Definition onState (f : State -> State) (y : Sys) : Sys :=
  {| props := props y; state := f (state y) |}.

(** [const setIsPlaying = onPlayingChange || setInternalIsPlaying] *)
Definition setIsPlaying (par : Parent) (b : bool) (y : Sys) : Sys :=
  match onPlayingChange par with
  | Some callback => {| props := callback b (props y); state := state y |}
  | None => onState (setInternalIsPlaying b) y
  end.

(** The handlers close over the [frameCount] of the render they were
    created in. *)
Definition nextFrame (par : Parent) (y : Sys) : Sys :=
  let count := Num (frameCount (props y)) in
  onState (setCurrentFrame (fun prev => rem (add prev (Num 1)) count))
    (setIsPlaying par false y).

Definition prevFrame (par : Parent) (y : Sys) : Sys :=
  let count := Num (frameCount (props y)) in
  onState
    (setCurrentFrame (fun prev => rem (add (sub prev (Num 1)) count) count))
    (setIsPlaying par false y).

Definition handleFrameClick (par : Parent) (index : Z) (y : Sys) : Sys :=
  onState (setCurrentFrame (fun _ => Num index))
    (onState (setViewMode preview) (setIsPlaying par false y)).

(** The play/pause button: [setIsPlaying(!isPlaying)]. *)
Definition togglePlaying (par : Parent) (y : Sys) : Sys :=
  setIsPlaying par (negb (isPlaying y)) y.

(** The frame slider: [setCurrentFrame(Number(e.target.value))]. *)
Definition scrubTo (value : Z) (y : Sys) : Sys :=
  onState (setCurrentFrame (fun _ => Num value)) y.

(** The SHEET tab: [setViewMode('sheet'); setIsPlaying(false)]. *)
Definition showSheet (par : Parent) (y : Sys) : Sys :=
  setIsPlaying par false (onState (setViewMode sheet) y).

(** The ANIMATION tab. *)
Definition showPreview (y : Sys) : Sys := onState (setViewMode preview) y.

(** The speed slider is inverted: [300 - value + 30]. *)
Definition speedSlider (par : Parent) (value : Z) (y : Sys) : Sys :=
  match onSpeedChange par with
  | Some callback =>
      {| props := callback (300 - value + 30) (props y); state := state y |}
  | None => y
  end.

(** The controls a user can operate. *)
Inductive UiEvent : Type :=
| ClickAnimationTab
| ClickSheetTab
| ClickPlayPause
| ClickPrev
| ClickNext
| ClickTimeline (i : nat)
| Scrub (value : Z)
| Speed (value : Z).

Definition inPreview (y : Sys) : bool := ViewMode_eqb (viewMode (state y)) preview.

(** Whether the control is rendered and enabled: the play and step
    buttons and both sliders only in preview mode, the step buttons
    [disabled={isPlaying}], the frame slider only while paused with
    [min=0 max={frameCount - 1}], one timeline button per extracted
    frame. *)
Definition enabled (e : UiEvent) (y : Sys) : bool :=
  match e with
  | ClickAnimationTab | ClickSheetTab => true
  | ClickPlayPause => inPreview y
  | ClickPrev | ClickNext => inPreview y && negb (isPlaying y)
  | ClickTimeline i => (i <? List.length (frames (state y)))%nat
  | Scrub v =>
      inPreview y && negb (isPlaying y) &&
      (0 <=? v) && (v <=? Z.max 0 (frameCount (props y) - 1))
  | Speed v => inPreview y && (30 <=? v) && (v <=? 300)
  end.

Definition handle (par : Parent) (e : UiEvent) (y : Sys) : Sys :=
  match e with
  | ClickAnimationTab => showPreview y
  | ClickSheetTab => showSheet par y
  | ClickPlayPause => togglePlaying par y
  | ClickPrev => prevFrame par y
  | ClickNext => nextFrame par y
  | ClickTimeline i => handleFrameClick par (Z.of_nat i) y
  | Scrub v => scrubTo v y
  | Speed v => speedSlider par v y
  end.

Definition dispatch (par : Parent) (e : UiEvent) (y : Sys) : option Sys :=
  if enabled e y then Some (handle par e y) else None.

(** The events of manual navigation. *)
Definition isSeek (e : UiEvent) : bool :=
  match e with
  | ClickPrev | ClickNext | ClickTimeline _ | Scrub _ => true
  | _ => false
  end.

(** The frame a navigation event aims at. *)
Definition target (e : UiEvent) (y : Sys) : jsnum :=
  match e with
  | ClickNext => add (currentFrame (state y)) (Num 1)
  | ClickPrev => sub (currentFrame (state y)) (Num 1)
  | ClickTimeline i => Num (Z.of_nat i)
  | Scrub v => Num v
  | _ => currentFrame (state y)
  end.

(** *** The animation loop *)

(** The effect runs the [requestAnimationFrame] loop unless
    [!isPlaying || viewMode !== 'preview' || frames.length === 0]. *)
Definition loopActive (y : Sys) : bool :=
  isPlaying y && inPreview y && negb (List.length (frames (state y)) =? 0)%nat.

(** One call of [animate(timestamp)]. *)
Definition animate (timestamp : Z) (y : Sys) : Sys :=
  if speed (props y) <=? timestamp - lastFrameTime (state y) then
    onState (setLastFrameTime timestamp)
      (onState
         (setCurrentFrame
            (fun prev => rem (add prev (Num 1)) (Num (frameCount (props y)))))
         y)
  else y.

(** One display frame: the callback runs only while the loop is on. *)
Definition tick (timestamp : Z) (y : Sys) : Sys :=
  if loopActive y then animate timestamp y else y.

(** *** Well-formed mounts *)

(** The playing flag is wired as the repository wires it: either the
    component owns it, or the parent does and stores what
    [onPlayingChange] reports. *)
Definition wired (par : Parent) (p : Props) : Prop :=
  match onPlayingChange par, externalIsPlaying p with
  | None, None => True
  | Some callback, Some _ => forall b q, callback b q = withPlaying b q
  | _, _ => False
  end /\
  match onSpeedChange par with
  | None => True
  | Some callback => forall v q, callback v q = withSpeed v q
  end.

(** The frame index points into the [frameCount] frames, and the timeline
    holds no more than [frameCount] frames. *)
Definition inRange (y : Sys) : Prop :=
  (exists c, currentFrame (state y) = Num c /\ 0 <= c < frameCount (props y)) /\
  Z.of_nat (List.length (frames (state y))) <= frameCount (props y).

(** The mount of the Generator page for a finished sprite job. *)
Definition mountedByGenerator (p : Props) (playing : bool) : Sys :=
  {| props := withPlaying playing p; state := initialState |}.

End SpriteAnimator.

(** ** Strings as JavaScript uses them *)
Module JsString.

Definition startsWith (s searchString : string) : bool :=
  String.prefix searchString s.

(** [s.includes(searchString)] *)
Fixpoint includes (s searchString : string) : bool :=
  String.prefix searchString s ||
  match s with
  | EmptyString => false
  | String _ rest => includes rest searchString
  end.

Definition lowerChar (c : ascii) : ascii :=
  let n := nat_of_ascii c in
  if ((65 <=? n) && (n <=? 90))%nat then ascii_of_nat (n + 32) else c.

(** [s.toLowerCase()], on the ASCII letters. *)
Fixpoint toLowerCase (s : string) : string :=
  match s with
  | EmptyString => EmptyString
  | String c rest => String (lowerChar c) (toLowerCase rest)
  end.

(** [s.slice(0, n)] *)
Definition sliceTo (n : nat) (s : string) : string := substring 0 n s.

(** [a || b] on an optional string: [undefined] and [''] are falsy. *)
Definition orElse (a : option string) (b : string) : string :=
  match a with
  | Some s => if (s =? "")%string then b else s
  | None => b
  end.

Definition isWhiteSpace (c : ascii) : bool :=
  let n := nat_of_ascii c in
  ((n =? 32) || ((9 <=? n) && (n <=? 13)))%nat.

(** [!s.trim()]: nothing but white space, for the white space of
    ASCII; the other white space of Unicode, which [trim] removes as well,
    is not covered. *)
Fixpoint isBlank (s : string) : bool :=
  match s with
  | EmptyString => true
  | String c rest => isWhiteSpace c && isBlank rest
  end.

(** A number inside a template literal. *)
Definition ofNumber (z : Z) : string := NilZero.string_of_int (Z.to_int z).

(** The path with one leading slash, if it has one, taken off. *)
Definition withoutLeadingSlash (path : string) : string :=
  if startsWith path "/" then substring 1 (String.length path - 1) path
  else path.

End JsString.
Import JsString.

(** ** The backend client *)
Module Api.

(** The deployment-time configuration, [import.meta.env]. *)
Record Env : Type := mkEnv {
  VITE_SPRITE_API_URL : option string;
  VITE_3D_API_URL : option string
}.

Definition SPRITE_API_BASE (env : Env) : string :=
  JsString.orElse (VITE_SPRITE_API_URL env) "http://localhost:5000".

Definition MODEL_3D_API_BASE (env : Env) : string :=
  JsString.orElse (VITE_3D_API_URL env) "http://localhost:8000".

Definition getOutputUrl (env : Env) (path : string) : string :=
  if startsWith path "http" then path
  else (SPRITE_API_BASE env ++ (if startsWith path "/" then "" else "/")
          ++ path)%string.

(** A call either returns or throws an [Error] with a message. *)
Inductive Outcome (A : Type) : Type :=
| Returned (a : A)
| Threw (message : string).
Arguments Returned {A} a.
Arguments Threw {A} message.

(** What [fetch] gives: a rejection, or a response with a status code
    whose body [response.json()] parses ([inr]) or rejects ([inl], the
    parser's message). *)
Inductive Fetched (A : Type) : Type :=
| Rejected (message : string)
| Responded (status : Z) (json : string + A).
Arguments Rejected {A} message.
Arguments Responded {A} status json.

(** [response.ok] *)
Definition ok (status : Z) : bool := (200 <=? status) && (status <=? 299).

(** *** The sprite endpoint *)

Record SpriteRequest : Type := mkSpriteRequest {
  req_prompt : string;
  req_preset : string;
  req_animations : option (list string);
  use_fibo_enhanced : bool
}.

(** The JSON object of a sprite response: its [error] member, read on
    failure, and the members of a generation result.  The [error] member
    is a string or absent, as the sprite backend sends it; a body that
    parses to [null] and an [error] member of another type are outside
    this type. *)
Record SpriteJson (R : Type) : Type := mkSpriteJson {
  error_member : option string;
  result : R
}.
Arguments mkSpriteJson {R} error_member result.
Arguments error_member {R} s.
Arguments result {R} s.

Definition spriteRequest (prompt preset : string)
  (animations : option (list string)) (useFiboEnhanced : option bool)
  : SpriteRequest :=
  {| req_prompt := prompt;
     req_preset := preset;
     req_animations :=
       match animations with
       | Some (a :: l) => Some (a :: l)
       | _ => None
       end;
     use_fibo_enhanced :=
       match useFiboEnhanced with Some b => b | None => false end |}.

Definition generateSprite {R : Type}
  (server : SpriteRequest -> Fetched (SpriteJson R))
  (prompt preset : string) (animations : option (list string))
  (useFiboEnhanced : option bool) : Outcome (SpriteJson R) :=
  match server (spriteRequest prompt preset animations useFiboEnhanced) with
  | Rejected m => Threw m
  | Responded status body =>
      if ok status then
        match body with
        | inl m => Threw m
        | inr j => Returned j
        end
      else
        let error :=
          match body with
          | inl _ => Some "Unknown error"
          | inr j => error_member j
          end in
        Threw (JsString.orElse error ("API error: " ++ ofNumber status)%string)
  end.

(** *** The 3D endpoints *)

Record StartReply : Type := mkStartReply {
  start_job_id : string;
  start_message : string
}.

Record JobStatus : Type := mkJobStatus {
  job_id : string;
  status : string;
  image_url : option string;
  model_url : option string;
  error : option string
}.

(** The 3D backend: its answer to a pipeline start, and its answer to
    the [n]-th status request (counted from 0). *)
Record Backend : Type := mkBackend {
  startPipeline : string -> Fetched StartReply;
  jobStatus : nat -> string -> Fetched JobStatus
}.

(** What a run does to the outside, in order. *)
Inductive Event : Type :=
| EvProgress (message : string)
| EvStart (prompt : string)
| EvWait (ms : Z)
| EvStatus (jobId : string).

Definition isStatus (e : Event) : bool :=
  match e with EvStatus _ => true | _ => false end.

Definition isWait (e : Event) : bool :=
  match e with EvWait _ => true | _ => false end.

(** The status requests made so far. *)
Definition polls (log : list Event) : nat := List.length (filter isStatus log).

(** The waits and status requests of a log, in order. *)
Definition schedule (log : list Event) : list Event :=
  filter (fun e => isStatus e || isWait e) log.

(** Computations that log events and may throw. *)
Definition M (A : Type) : Type := list Event -> Outcome A * list Event.

Definition ret {A : Type} (a : A) : M A := fun log => (Returned a, log).

Definition throw {A : Type} (message : string) : M A :=
  fun log => (Threw message, log).

Definition bind {A B : Type} (m : M A) (k : A -> M B) : M B :=
  fun log =>
    match m log with
    | (Returned a, log') => k a log'
    | (Threw e, log') => (Threw e, log')
    end.

Definition emit (e : Event) : M unit := fun log => (Returned tt, (log ++ [e])%list).

Declare Scope api_scope.
Delimit Scope api_scope with api.
Notation "x <- m ;; k" := (bind m (fun x => k))
  (at level 61, m at next level, right associativity) : api_scope.
Notation "m ;; k" := (bind m (fun _ => k))
  (at level 61, right associativity) : api_scope.
Open Scope api_scope.

Record Result3D : Type := mkResult3D { imageUrl : string; modelUrl : string }.

Definition maxAttempts : nat := 120.

Section Client.

Variable env : Env.
Variable backend : Backend.

(** [const wait = (ms) => new Promise(resolve => setTimeout(resolve, ms))] *)
Definition wait (ms : Z) : M unit := emit (EvWait ms).

(** [onProgress?.(message)]; [onProgress] tells whether the optional
    callback was passed. *)
Definition progress (onProgress : bool) (message : string) : M unit :=
  if onProgress then emit (EvProgress message) else ret tt.

Definition start3DPipeline (prompt : string) : M StartReply :=
  emit (EvStart prompt) ;;
  match startPipeline backend prompt with
  | Rejected m => throw m
  | Responded code body =>
      if ok code then
        match body with
        | inl m => throw m
        | inr r => ret r
        end
      else throw ("Failed to start 3D pipeline: " ++ ofNumber code)%string
  end.

Definition get3DJobStatus (jobId : string) : M JobStatus :=
  fun log =>
    (emit (EvStatus jobId) ;;
     match jobStatus backend (polls log) jobId with
     | Rejected m => throw m
     | Responded code body =>
         if ok code then
           match body with
           | inl m => throw m
           | inr r => ret r
           end
         else throw ("Failed to get job status: " ++ ofNumber code)%string
     end) log.

(** The [completed] branch. *)
Definition completedResult (st : JobStatus) : Result3D :=
  let modelUrl := JsString.orElse (model_url st) "" in
  let modelUrl :=
    if startsWith modelUrl "/" then (MODEL_3D_API_BASE env ++ modelUrl)%string
    else modelUrl in
  {| imageUrl := JsString.orElse (image_url st) ""; modelUrl := modelUrl |}.

(** The body of [for (let i = 0; i < maxAttempts; i++)] followed by the
    [throw] after the loop; [attempts] counts the iterations left. *)
Fixpoint pollLoop (onProgress : bool) (jobId : string) (attempts : nat)
  : M Result3D :=
  match attempts with
  | O => throw "Pipeline timed out"
  | S attempts' =>
      wait 5000 ;;
      st <- get3DJobStatus jobId ;;
      if (status st =? "pending")%string then
        progress onProgress "Waiting to start..." ;;
        pollLoop onProgress jobId attempts'
      else if (status st =? "generating_image")%string then
        progress onProgress "Generating reference image with FIBO..." ;;
        pollLoop onProgress jobId attempts'
      else if (status st =? "generating_3d")%string then
        progress onProgress "Converting to 3D model with TRIPO..." ;;
        pollLoop onProgress jobId attempts'
      else if (status st =? "completed")%string then
        progress onProgress "Complete!" ;;
        ret (completedResult st)
      else if (status st =? "failed")%string then
        throw (JsString.orElse (error st) "Pipeline failed")
      else pollLoop onProgress jobId attempts'
  end.

Definition generate3D (prompt : string) (onProgress : bool) : M Result3D :=
  progress onProgress "Starting 3D generation pipeline..." ;;
  r <- start3DPipeline prompt ;;
  progress onProgress
    ("Pipeline started (Job: " ++ sliceTo 8 (start_job_id r) ++ "...)")%string ;;
  pollLoop onProgress (start_job_id r) maxAttempts.

End Client.

(** A status that ends the polling. *)
Definition terminal (s : string) : bool :=
  ((s =? "completed") || (s =? "failed"))%string.

(** What the [n]-th call of [get3DJobStatus] gives its caller. *)
Definition pollOutcome (backend : Backend) (jobId : string) (n : nat)
  : Outcome JobStatus :=
  match jobStatus backend n jobId with
  | Rejected m => Threw m
  | Responded code body =>
      if ok code then
        match body with
        | inl m => Threw m
        | inr r => Returned r
        end
      else Threw ("Failed to get job status: " ++ ofNumber code)%string
  end.

(** What [start3DPipeline] gives its caller. *)
Definition startOutcome (backend : Backend) (prompt : string)
  : Outcome StartReply :=
  match startPipeline backend prompt with
  | Rejected m => Threw m
  | Responded code body =>
      if ok code then
        match body with
        | inl m => Threw m
        | inr r => Returned r
        end
      else Threw ("Failed to start 3D pipeline: " ++ ofNumber code)%string
  end.

(** The progress message of a status, if it has one. *)
Definition stageMessage (s : string) : option string :=
  if (s =? "pending")%string then Some "Waiting to start..."
  else if (s =? "generating_image")%string then
    Some "Generating reference image with FIBO..."
  else if (s =? "generating_3d")%string then
    Some "Converting to 3D model with TRIPO..."
  else if (s =? "completed")%string then Some "Complete!"
  else None.

(** The events of one pass of the loop that got status [s]. *)
Definition onePass (onProgress : bool) (jobId s : string) : list Event :=
  [EvWait 5000; EvStatus jobId] ++
  match stageMessage s with
  | Some m => if onProgress then [EvProgress m] else []
  | None => []
  end.

(** The events before the loop, for a start that gave job [jobId]. *)
Definition prelude (onProgress : bool) (prompt jobId : string) : list Event :=
  (if onProgress then [EvProgress "Starting 3D generation pipeline..."] else [])
  ++ [EvStart prompt] ++
  (if onProgress
   then [EvProgress ("Pipeline started (Job: " ++ sliceTo 8 jobId ++ "...)")%string]
   else []).

(** [n] passes that each wait five seconds and then ask for the status. *)
Definition fixedSchedule (jobId : string) (n : nat) : list Event :=
  List.concat (repeat [EvWait 5000; EvStatus jobId] n).

(** The [n]-th status request is answered, with a status that does not
    end the polling. *)
Definition keepsGoing (backend : Backend) (jobId : string) (n : nat) : Prop :=
  exists code st,
    jobStatus backend n jobId = Responded code (inr st) /\
    ok code = true /\ terminal (status st) = false.

(** The pipeline start is answered with job [jobId]. *)
Definition started (backend : Backend) (prompt jobId : string) : Prop :=
  exists code r,
    startPipeline backend prompt = Responded code (inr r) /\
    ok code = true /\ start_job_id r = jobId.

(** The [n]-th status request is answered with status [failed]. *)
Definition reportsFailed (backend : Backend) (jobId : string) (n : nat) : Prop :=
  exists code st,
    jobStatus backend n jobId = Responded code (inr st) /\
    ok code = true /\ status st = "failed".

Close Scope api_scope.

End Api.
Import Api.

(** ** The Generator page: [handleGenerate] *)
Module Generator.

Inductive ErrorType : Type := moderation | network | general.

Inductive GenerationStatus : Type := idle | generating | completed | failed.

Inductive GenType : Type := Mode3D | ModeSprite.

(** The part of the page state that a generation attempt writes. *)
Record Page : Type := mkPage {
  errorMessage : option string;
  errorType : ErrorType;
  progressMessage : string;
  isGenerating : bool;
  generationStatus : GenerationStatus
}.

Definition initialPage : Page :=
  {| errorMessage := None; errorType := general; progressMessage := "";
     isGenerating := false; generationStatus := idle |}.

Definition moderationText : string :=
  "Your prompt was flagged by content moderation. Please try a different description without potentially offensive or inappropriate content.".

Definition networkText : string :=
  "Network error. Please check your connection and ensure the backend server is running.".

(** The category the [catch] branch gives an error message. *)
Definition classify (errorMsg : string) : ErrorType :=
  let lower := toLowerCase errorMsg in
  if includes lower "moderation" || includes lower "content" then moderation
  else if includes lower "network" || includes lower "fetch"
          || includes lower "timeout" then network
  else general.

(** The [catch] branch: classify, show, and leave the [failed] state. *)
Definition onCaught (errorMsg : string) (pg : Page) : Page :=
  {| errorMessage :=
       Some match classify errorMsg with
            | moderation => moderationText
            | network => networkText
            | general => errorMsg
            end;
     errorType := classify errorMsg;
     progressMessage := "";
     isGenerating := false;
     generationStatus := failed |}.

(** The end of the [try] block. *)
Definition onDone (pg : Page) : Page :=
  {| errorMessage := errorMessage pg; errorType := errorType pg;
     progressMessage := progressMessage pg;
     isGenerating := false; generationStatus := completed |}.

(** The writes before the [try] block. *)
Definition onBegin (pg : Page) : Page :=
  {| errorMessage := None; errorType := errorType pg;
     progressMessage := progressMessage pg;
     isGenerating := true; generationStatus := generating |}.

Definition setProgressMessage (m : string) (pg : Page) : Page :=
  {| errorMessage := errorMessage pg; errorType := errorType pg;
     progressMessage := m;
     isGenerating := isGenerating pg; generationStatus := generationStatus pg |}.

Definition setErrorMessage (m : option string) (pg : Page) : Page :=
  {| errorMessage := m; errorType := errorType pg;
     progressMessage := progressMessage pg;
     isGenerating := isGenerating pg; generationStatus := generationStatus pg |}.

(** [handleGenerate], as far as the page state above goes: the step
    list and the stored result are left out.  Every request is taken to
    settle, and after [generateSprite] has returned the rest of the [try]
    block, which reads [result.animations] and [result.download_urls], is
    taken to go through: a result that lacks them makes the code end in
    the [catch] branch instead. *)
Definition handleGenerate {R : Type} (env : Env) (backend : Backend)
  (server : SpriteRequest -> Fetched (SpriteJson R))
  (selectedMode : GenType) (prompt selectedPreset : string)
  (selectedAnimations : list string) (useFiboEnhanced : bool)
  (pg : Page) : Page :=
  if isBlank prompt then setErrorMessage (Some "Please enter a prompt") pg
  else
    let pg := onBegin pg in
    match selectedMode with
    | Mode3D =>
        match fst (generate3D env backend prompt true []) with
        | Returned _ => onDone (setProgressMessage "" pg)
        | Threw m => onCaught m pg
        end
    | ModeSprite =>
        match
          generateSprite server prompt selectedPreset
            (match selectedAnimations with
             | [] => None
             | _ => Some selectedAnimations
             end)
            (Some useFiboEnhanced)
        with
        | Returned _ => onDone (setProgressMessage "Generating sprite sheets..." pg)
        | Threw m => onCaught m pg
        end
    end.

End Generator.
Import SpriteAnimator Generator.

(** ** Sample inputs *)
Module Samples.

Definition env : Env :=
  {| VITE_SPRITE_API_URL := None; VITE_3D_API_URL := None |}.

(** A sheet of 384x64 pixels holding six frames. *)
Definition sheet384 : Image := {| width := 384; height := 64 |}.

Definition walkProps : Props :=
  defaultProps "/output/walk.gif" "/output/walk_sheet.png".

(** The same sheet, asked for with a frame count of zero. *)
Definition zeroCountProps : Props :=
  {| gifUrl := "/output/walk.gif"; sheetUrl := "/output/walk_sheet.png";
     frameCount := 0; frameWidth := None; frameHeight := None;
     speed := 100; externalIsPlaying := None |}.

(** A paused standalone animator showing frame 2 of 6. *)
Definition pausedAt2 : Sys :=
  {| props := walkProps;
     state :=
       {| internalIsPlaying := false; viewMode := preview; imgError := false;
          currentFrame := Num 2; sheetDimensions := Some (384, 64);
          frames := extractFrames walkProps sheet384;
          lastFrameTime := 1000 |} |}.

(** The same animator, playing. *)
Definition playingAt2 : Sys :=
  {| props := walkProps;
     state := setInternalIsPlaying true (state pausedAt2) |}.

Definition pendingStatus (jobId : string) : JobStatus :=
  {| job_id := jobId; status := "pending"; image_url := None;
     model_url := None; error := None |}.

Definition completedStatus (jobId : string) : JobStatus :=
  {| job_id := jobId; status := "completed";
     image_url := Some "https://cdn.example/robot.png";
     model_url := Some "/models/robot.glb"; error := None |}.

Definition startOk : string -> Fetched StartReply :=
  fun _ => Responded 200
             (inr {| start_job_id := "3f2a9c1e-77";
                     start_message := "started" |}).

(** A backend whose job never leaves [pending]. *)
Definition alwaysPending : Backend :=
  {| startPipeline := startOk;
     jobStatus := fun _ jobId => Responded 200 (inr (pendingStatus jobId)) |}.

(** A backend whose job is done at the first status request. *)
Definition doneAtOnce : Backend :=
  {| startPipeline := startOk;
     jobStatus := fun _ jobId => Responded 200 (inr (completedStatus jobId)) |}.

(** A backend whose first status request fails with HTTP 503 and whose
    job is done from the second on. *)
Definition oneHiccup : Backend :=
  {| startPipeline := startOk;
     jobStatus := fun n jobId =>
       match n with
       | O => Responded 503 (inl "Unexpected token < in JSON")
       | S _ => Responded 200 (inr (completedStatus jobId))
       end |}.

(** A sprite backend that turns every prompt down. *)
Definition flagging : SpriteRequest -> Fetched (SpriteJson unit) :=
  fun _ => Responded 400
             (inr {| error_member := Some "content moderation flagged";
                     result := tt |}).

End Samples.

(** ** More of the sprite animator: what is shown, and runs of inputs *)
Module SpriteView.

(** The position of the speed slider: [value={300 - speed + 30}]. *)
Definition sliderValue (p : Props) : Z := 300 - speed p + 30.

(** [frames[i]] for a number [i]: only a non-negative integer below the
    length names an element. *)
Definition frameAtIndex (fs : list Frame) (i : jsnum) : option Frame :=
  match i with
  | Num c => if c <? 0 then None else nth_error fs (Z.to_nat c)
  | _ => None
  end.

(** The frame the main viewer shows: nothing after an image error,
    nothing outside preview mode or before frames exist, else
    [frames[currentFrame] || frames[0]]. *)
Definition previewFrame (y : Sys) : option Frame :=
  if imgError (state y) then None
  else if inPreview y && negb (List.length (frames (state y)) =? 0)%nat then
    match frameAtIndex (frames (state y)) (currentFrame (state y)) with
    | Some f => Some f
    | None => nth_error (frames (state y)) 0
    end
  else None.

(** What can happen to a mounted animator: a control is operated (when
    it is rendered and enabled), a display frame arrives, the sheet image
    loads or fails to load. *)
Inductive Input : Type :=
| Ui (e : UiEvent)
| Tick (timestamp : Z)
| Loaded (ctx : bool) (img : Image)
| LoadFailed.

Definition step (par : Parent) (i : Input) (y : Sys) : Sys :=
  match i with
  | Ui e => if enabled e y then handle par e y else y
  | Tick t => tick t y
  | Loaded ctx img => onState (onload (props y) ctx img) y
  | LoadFailed => onState onerror y
  end.

Definition run (par : Parent) (inputs : list Input) (y : Sys) : Sys :=
  fold_left (fun y i => step par i y) inputs y.

(** [n] presses of the next-frame button. *)
Fixpoint nextFrames (par : Parent) (n : nat) (y : Sys) : Sys :=
  match n with
  | O => y
  | S n' => nextFrames par n' (nextFrame par y)
  end.

(** The props the Generator page passes for an animation with the given
    [frame_count] (absent when the animation is not in the result) and
    [frame_size]: [frameCount={...?.frame_count || 6}
    frameWidth={frame_size[0]} frameHeight={frame_size[1]}]. *)
Definition generatorProps (gif sheetPath : string) (frame_count : option Z)
  (frame_size : Z * Z) (animationSpeed : Z) (playing : bool) : Props :=
  {| gifUrl := gif; sheetUrl := sheetPath;
     frameCount :=
       match frame_count with
       | Some n => if n =? 0 then 6 else n
       | None => 6
       end;
     frameWidth := Some (fst frame_size);
     frameHeight := Some (snd frame_size);
     speed := animationSpeed;
     externalIsPlaying := Some playing |}.

End SpriteView.
Import SpriteView.

(** ** More of the backend client *)
Module ApiMore.

(** [checkSpriteHealth] and [check3DHealth]: [response.ok], and [false]
    when the request throws (also on the 3 s abort). *)
Definition checkHealth {A : Type} (reply : Fetched A) : bool :=
  match reply with
  | Rejected _ => false
  | Responded code _ => ok code
  end.

(** [getSpritePresets] *)
Definition getSpritePresets {P : Type} (reply : Fetched P) : Outcome P :=
  match reply with
  | Rejected m => Threw m
  | Responded code body =>
      if ok code then
        match body with
        | inl m => Threw m
        | inr p => Returned p
        end
      else Threw ("Failed to fetch presets: " ++ ofNumber code)%string
  end.

Record RefineRequest : Type := mkRefineRequest {
  ref_job_id : string;
  ref_animation : string;
  ref_prompt : string;
  ref_refinement : string;
  ref_preset : string
}.

Definition refineRequest (jobId animation prompt refinement : string)
  (preset : option string) : RefineRequest :=
  {| ref_job_id := jobId; ref_animation := animation; ref_prompt := prompt;
     ref_refinement := refinement;
     ref_preset := JsString.orElse preset "anime_action" |}.

Definition refineSprite {R : Type}
  (server : RefineRequest -> Fetched (SpriteJson R))
  (jobId animation prompt refinement : string) (preset : option string)
  : Outcome (SpriteJson R) :=
  match server (refineRequest jobId animation prompt refinement preset) with
  | Rejected m => Threw m
  | Responded code body =>
      if ok code then
        match body with
        | inl m => Threw m
        | inr j => Returned j
        end
      else
        let error :=
          match body with
          | inl _ => Some "Unknown error"
          | inr j => error_member j
          end in
        Threw (JsString.orElse error ("Refine failed: " ++ ofNumber code)%string)
  end.

(** The messages passed to [onProgress], in order. *)
Definition progressMessages (log : list Event) : list string :=
  flat_map (fun e => match e with EvProgress m => [m] | _ => [] end) log.

(** The [n]-th status request is answered with status [completed]. *)
Definition reportsCompleted (backend : Backend) (jobId : string) (n : nat)
  (st : JobStatus) : Prop :=
  pollOutcome backend jobId n = Returned st /\ status st = "completed".

End ApiMore.
Import ApiMore.

(** ** The application store: the progress steps *)
Module Store.

Inductive StepStatus : Type := pending | active | completed.

Record GenerationStep : Type := mkStep {
  id : string;
  label : string;
  status : StepStatus;
  description : option string
}.

Definition INITIAL_STEPS_3D : list GenerationStep :=
  [ {| id := "structured"; label := "Structure Prompt"; status := pending;
       description := Some "Analyzing intent..." |};
    {| id := "canonical"; label := "Canonical View"; status := pending;
       description := Some "Generating 2D reference..." |};
    {| id := "mesh"; label := "Mesh Gen"; status := pending;
       description := Some "Triangulating geometry..." |};
    {| id := "cleanup"; label := "Blender Cleanup"; status := pending;
       description := Some "Optimizing topology..." |};
    {| id := "final"; label := "Finalizing"; status := pending;
       description := Some "Baking textures..." |} ].

Definition INITIAL_STEPS_SPRITE : list GenerationStep :=
  [ {| id := "concept"; label := "Concept Art"; status := pending;
       description := None |};
    {| id := "spritesheet"; label := "Sheet Generation"; status := pending;
       description := None |};
    {| id := "animation"; label := "Animation Test"; status := pending;
       description := None |} ].

(** [{ ...s, status }] *)
Definition withStatus (st : StepStatus) (s : GenerationStep) : GenerationStep :=
  {| id := id s; label := label s; status := st;
     description := description s |}.

(** [steps.map(s => s.id === id ? { ...s, status } : s)] *)
Definition updateStep (stepId : string) (st : StepStatus)
  (steps : list GenerationStep) : list GenerationStep :=
  map (fun s => if (id s =? stepId)%string then withStatus st s else s) steps.

(** The steps [resetSteps] and [setMode] install. *)
Definition initialSteps (mode : GenType) : list GenerationStep :=
  match mode with
  | Mode3D => INITIAL_STEPS_3D
  | ModeSprite => INITIAL_STEPS_SPRITE
  end.

(** [addAsset]: the newest asset first. *)
Definition addAsset {A : Type} (asset : A) (assets : list A) : list A :=
  asset :: assets.

End Store.

(** ** More of the Generator page *)
Module GeneratorMore.

(** The animation buttons:
    [prev.includes(anim) ? prev.filter(a => a !== anim) : [...prev, anim]]. *)
Definition toggleAnimation (anim : string) (prev : list string) : list string :=
  if existsb (fun a => (a =? anim)%string) prev
  then filter (fun a => negb (a =? anim)%string) prev
  else (prev ++ [anim])%list.

(** The progress callback of the 3D path, on the steps. *)
Definition onProgressSteps (status : string)
  (steps : list Store.GenerationStep) : list Store.GenerationStep :=
  if includes status "FIBO" || includes status "image" then
    Store.updateStep "canonical" Store.active steps
  else if includes status "TRIPO" || includes status "3D" then
    Store.updateStep "mesh" Store.active
      (Store.updateStep "canonical" Store.completed steps)
  else steps.

(** The steps [handleGenerate] leaves behind: its calls of [resetSteps]
    and [updateStep], in order.  In the sprite branch the last of them
    come right after [generateSprite] has returned; what the [try] block
    does after them writes no step, whether it goes through or throws. *)
Definition stepsAfterGenerate {R : Type} (env : Env) (backend : Backend)
  (server : SpriteRequest -> Fetched (SpriteJson R))
  (selectedMode : GenType) (prompt selectedPreset : string)
  (selectedAnimations : list string) (useFiboEnhanced : bool)
  (steps : list Store.GenerationStep) : list Store.GenerationStep :=
  if isBlank prompt then steps
  else
    let steps := Store.initialSteps selectedMode in
    match selectedMode with
    | Mode3D =>
        let steps := Store.updateStep "structured" Store.active steps in
        let steps := Store.updateStep "structured" Store.completed steps in
        let steps := Store.updateStep "canonical" Store.active steps in
        let steps := Store.updateStep "mesh" Store.active steps in
        let run := generate3D env backend prompt true [] in
        let steps :=
          fold_left (fun st m => onProgressSteps m st)
            (progressMessages (snd run)) steps in
        match fst run with
        | Returned _ =>
            Store.updateStep "final" Store.completed
              (Store.updateStep "cleanup" Store.completed
                 (Store.updateStep "mesh" Store.completed
                    (Store.updateStep "canonical" Store.completed steps)))
        | Threw _ => steps
        end
    | ModeSprite =>
        let steps := Store.updateStep "concept" Store.active steps in
        let steps := Store.updateStep "concept" Store.completed steps in
        let steps := Store.updateStep "spritesheet" Store.active steps in
        match
          generateSprite server prompt selectedPreset
            (match selectedAnimations with
             | [] => None
             | _ => Some selectedAnimations
             end)
            (Some useFiboEnhanced)
        with
        | Returned _ =>
            Store.updateStep "animation" Store.completed
              (Store.updateStep "spritesheet" Store.completed steps)
        | Threw _ => steps
        end
    end.

(** The 3D steps while [generate3D] runs: the prompt step done, the two
    last steps not begun, the two middle steps as the progress callback
    has left them. *)
Definition running3D (canonical mesh : Store.StepStatus)
  : list Store.GenerationStep :=
  [ Store.withStatus Store.completed (nth 0 Store.INITIAL_STEPS_3D
      (Store.mkStep "" "" Store.pending None));
    Store.withStatus canonical (nth 1 Store.INITIAL_STEPS_3D
      (Store.mkStep "" "" Store.pending None));
    Store.withStatus mesh (nth 2 Store.INITIAL_STEPS_3D
      (Store.mkStep "" "" Store.pending None));
    nth 3 Store.INITIAL_STEPS_3D (Store.mkStep "" "" Store.pending None);
    nth 4 Store.INITIAL_STEPS_3D (Store.mkStep "" "" Store.pending None) ].

Inductive BackendStatus : Type := checking | online | offline.

Definition BackendStatus_eqb (a b : BackendStatus) : bool :=
  match a, b with
  | checking, checking | online, online | offline, offline => true
  | _, _ => false
  end.

(** The backend part of the page state. *)
Record Backends (P : Type) : Type := mkBackends {
  spriteBackendStatus : BackendStatus;
  backend3DStatus : BackendStatus;
  presets : P
}.
Arguments mkBackends {P} _ _ _.
Arguments spriteBackendStatus {P} _.
Arguments backend3DStatus {P} _.
Arguments presets {P} _.

(** [checkBackends].  The two health requests carry a 3 s abort and so
    always settle; the presets request carries none: [presetsReply] is
    [None] when it never settles, and then the function never gets to
    the 3D check.  The presets are asked for only when the sprite backend
    is healthy, and a failure to load them is logged, not raised. *)
Definition checkBackends {P A B : Type} (spriteHealth : Fetched A)
  (presetsReply : option (Fetched P)) (health3D : Fetched B) (b : Backends P)
  : Backends P :=
  let spriteHealthy := checkHealth spriteHealth in
  let b1 :=
    {| spriteBackendStatus := if spriteHealthy then online else offline;
       backend3DStatus := backend3DStatus b;
       presets := presets b |} in
  let check3D (b2 : Backends P) : Backends P :=
    {| spriteBackendStatus := spriteBackendStatus b2;
       backend3DStatus := if checkHealth health3D then online else offline;
       presets := presets b2 |} in
  if spriteHealthy then
    match presetsReply with
    | None => b1
    | Some reply =>
        match getSpritePresets reply with
        | Returned loadedPresets =>
            check3D
              {| spriteBackendStatus := spriteBackendStatus b1;
                 backend3DStatus := backend3DStatus b1;
                 presets := loadedPresets |}
        | Threw _ => check3D b1
        end
    end
  else check3D b1.

(** The [disabled] prop of the Generate button. *)
Definition generateDisabled {P : Type} (generating : bool)
  (selectedMode : GenType) (b : Backends P) : bool :=
  generating
  || (match selectedMode with ModeSprite => true | Mode3D => false end
      && negb (BackendStatus_eqb (spriteBackendStatus b) online))
  || (match selectedMode with Mode3D => true | ModeSprite => false end
      && negb (BackendStatus_eqb (backend3DStatus b) online)).

End GeneratorMore.
Import GeneratorMore.

(** ** Responses as they arrive *)
Module Wire.

(** The 3D client types the JSON object of a response by the members it
    declares; an [error] member that the object also carries is not part
    of that type, and no 3D call of the client reads it. *)
Definition asTyped {A : Type} (reply : Fetched (SpriteJson A)) : Fetched A :=
  match reply with
  | Rejected m => Rejected m
  | Responded code body =>
      Responded code
        match body with
        | inl m => inl m
        | inr j => inr (result j)
        end
  end.

(** Characters below the letters in the ASCII table: among them the
    digits and the sign of a printed number. *)
Definition belowLetters (c : ascii) : bool := (nat_of_ascii c <? 65)%nat.

Fixpoint allBelowLetters (s : string) : bool :=
  match s with
  | EmptyString => true
  | String c rest => belowLetters c && allBelowLetters rest
  end.

(** Characters from the letters on. *)
Fixpoint allLetters (s : string) : bool :=
  match s with
  | EmptyString => true
  | String c rest => (65 <=? nat_of_ascii c)%nat && allLetters rest
  end.

End Wire.
Import Wire.

(** ** More sample inputs *)
Module MoreSamples.

Import Samples.

(** The props of the Generator page for a six-frame animation of 64x64
    frames. *)
Definition walkFromGenerator : Props :=
  generatorProps "http://localhost:5000/output/walk.gif"
    "http://localhost:5000/output/walk_sheet.png" (Some 6) (64, 64) 100 true.

(** A session at a fresh standalone animator. *)
Definition session : list Input :=
  [ Tick 16; Loaded true sheet384; Tick 5000; Ui ClickPlayPause;
    Ui ClickNext; Ui (ClickTimeline 3); Ui ClickSheetTab; Tick 6000;
    Ui ClickAnimationTab; Ui (Scrub 5); Ui ClickPrev ].

Definition failedStatus (jobId : string) : JobStatus :=
  {| job_id := jobId; status := "failed"; image_url := None;
     model_url := None; error := Some "bad input" |}.

(** A backend that turns the pipeline start down with HTTP 500. *)
Definition failsToStart : Backend :=
  {| startPipeline := fun _ => Responded 500 (inl "Internal Server Error");
     jobStatus := fun _ jobId => Responded 200 (inr (completedStatus jobId)) |}.

(** A backend that turns the pipeline start down with HTTP 400 and the
    JSON body [{"error": "content moderation flagged"}]; the members the
    body lacks are never read on a non-2xx answer. *)
Definition moderating3D : Backend :=
  {| startPipeline := fun _ =>
       asTyped
         (Responded 400
            (inr {| error_member := Some "content moderation flagged";
                    result := {| start_job_id := ""; start_message := "" |} |}));
     jobStatus := fun _ jobId => Responded 200 (inr (completedStatus jobId)) |}.

(** A backend whose job is pending twice and then done. *)
Definition doneAtThird : Backend :=
  {| startPipeline := startOk;
     jobStatus := fun n jobId =>
       match n with
       | O | S O => Responded 200 (inr (pendingStatus jobId))
       | _ => Responded 200 (inr (completedStatus jobId))
       end |}.

(** A backend whose job is pending once and then failed. *)
Definition failsAtSecond : Backend :=
  {| startPipeline := startOk;
     jobStatus := fun n jobId =>
       match n with
       | O => Responded 200 (inr (pendingStatus jobId))
       | _ => Responded 200 (inr (failedStatus jobId))
       end |}.

End MoreSamples.

(* ===================================================================== *)
(** * Part II: theorems *)
(* ===================================================================== *)

(** ** Frame extraction *)
Section FrameExtraction.

Lemma seq_succ_map (A : Type) (f : nat -> A) (n : nat) :
  map f (seq 1 n) = map (fun k => f (S k)) (seq 0 n).
Proof.
  rewrite <- seq_shift, map_map. reflexivity.
Qed.

(** The loop pushes one frame for each index from [i] up to [count]; any
    fuel that covers the distance gives the same list. *)
Lemma extractLoop_spec (fw fh : jsnum) (count : Z) :
  forall (fuel : nat) (i : Z) (acc : list Frame),
    count - i <= Z.of_nat fuel ->
    extractLoop fuel i count fw fh acc =
    (acc ++ map (fun k => frameAt fw fh (i + Z.of_nat k))
              (seq 0 (Z.to_nat (count - i))))%list.
Proof.
  induction fuel as [|fuel IH]; intros i acc Hfuel; simpl.
  - replace (Z.to_nat (count - i)) with O by lia.
    simpl. now rewrite app_nil_r.
  - destruct (Z.ltb_spec i count) as [Hlt|Hge].
    + rewrite IH by lia.
      replace (Z.to_nat (count - i)) with (S (Z.to_nat (count - (i + 1)))) by lia.
      rewrite <- app_assoc. cbn [seq map app].
      rewrite seq_succ_map. f_equal. f_equal.
      * f_equal. lia.
      * apply map_ext. intros k. f_equal. lia.
    + replace (Z.to_nat (count - i)) with O by lia.
      simpl. now rewrite app_nil_r.
Qed.

Lemma extractFrames_spec (p : Props) (img : Image) :
  extractFrames p img =
  map (fun k => frameAt (calculatedFrameWidth p img)
                  (calculatedFrameHeight p img) (Z.of_nat k))
      (seq 0 (Z.to_nat (frameCount p))).
Proof.
  unfold extractFrames. rewrite extractLoop_spec by lia.
  rewrite Z.sub_0_r. reflexivity.
Qed.

Lemma extractFrames_length (p : Props) (img : Image) :
  List.length (extractFrames p img) = Z.to_nat (frameCount p).
Proof.
  rewrite extractFrames_spec, length_map, length_seq. reflexivity.
Qed.

Lemma extractFrames_nth (p : Props) (img : Image) (i : Z) :
  0 <= i < frameCount p ->
  nth_error (extractFrames p img) (Z.to_nat i) =
  Some (frameAt (calculatedFrameWidth p img) (calculatedFrameHeight p img) i).
Proof.
  intros Hi. rewrite extractFrames_spec.
  rewrite nth_error_map.
  rewrite nth_error_seq.
  destruct (Nat.ltb_spec (Z.to_nat i) (Z.to_nat (frameCount p))) as [_|Hbad];
    [|lia].
  simpl. f_equal. f_equal. lia.
Qed.

Lemma totalWidth_const (w : Z) (fh : jsnum) (f : nat -> Z) (l : list nat) :
  totalWidth (map (fun k => frameAt (Num w) fh (f k)) l) =
  Num (Z.of_nat (List.length l) * w).
Proof.
  induction l as [|k l IH].
  - reflexivity.
  - cbn [map totalWidth fold_right] in *.
    unfold totalWidth in IH. rewrite IH. cbn [sw frameAt add List.length].
    f_equal. lia.
Qed.

Lemma onload_frames (p : Props) (img : Image) (s : State) :
  frames (onload p true img s) = extractFrames p img.
Proof. reflexivity. Qed.

Lemma default_frame_width (p : Props) (img : Image) :
  frameCount p <> 0 -> frameWidth p = None ->
  calculatedFrameWidth p img = Num (width img / frameCount p).
Proof.
  intros HF Hw. unfold calculatedFrameWidth, floorDiv. rewrite Hw. simpl.
  destruct (Z.eqb_spec (frameCount p) 0); [contradiction|reflexivity].
Qed.

(** C1. With a positive frame count [F] and no explicit frame size, a loaded
    sheet of [W]x[H] pixels yields exactly [F] frames; frame [i] is the
    crop starting at column [i * floor(W/F)], [floor(W/F)] columns wide,
    so it ends before column [(i+1) * floor(W/F)], and spans rows [0..H);
    every frame lies inside the sheet and the widths sum to
    [F * floor(W/F)], which is at most [W]. *)
Theorem C1_frames_cover_columns :
  forall (p : Props) (img : Image) (s : State),
    0 < frameCount p ->
    frameWidth p = None ->
    frameHeight p = None ->
    0 <= width img ->
    Z.of_nat (List.length (frames (onload p true img s))) = frameCount p /\
    (forall i, 0 <= i < frameCount p ->
       exists f,
         nth_error (frames (onload p true img s)) (Z.to_nat i) = Some f /\
         sx f = Num (i * (width img / frameCount p)) /\
         add (sx f) (sw f) = Num ((i + 1) * (width img / frameCount p)) /\
         sy f = Num 0 /\ sh f = Num (height img) /\
         0 <= i * (width img / frameCount p) /\
         (i + 1) * (width img / frameCount p) <= width img) /\
    totalWidth (frames (onload p true img s)) =
      Num (frameCount p * (width img / frameCount p)) /\
    frameCount p * (width img / frameCount p) <= width img.
Proof.
  intros p img s HF Hw Hh HW.
  rewrite onload_frames.
  assert (Hdiv : 0 <= width img / frameCount p) by (apply Z.div_pos; lia).
  assert (Hmul : frameCount p * (width img / frameCount p) <= width img)
    by (apply Z.mul_div_le; lia).
  repeat split.
  - rewrite extractFrames_length. lia.
  - intros i Hi. eexists. split; [apply extractFrames_nth; exact Hi|].
    rewrite default_frame_width by (assumption || lia).
    unfold calculatedFrameHeight. rewrite Hh.
    cbn [frameAt sx sy sw sh mul add JsNum.orElse].
    repeat split; try (f_equal; lia); nia.
  - rewrite extractFrames_spec.
    rewrite default_frame_width by (assumption || lia).
    rewrite totalWidth_const, length_seq. f_equal. lia.
  - exact Hmul.
Qed.

(** C5, as the code has it. A frame count of zero or less does not stop
    the load: the image is requested whenever [sheetUrl] is not empty (an
    empty [sheetUrl] is the one input turned away before the request),
    and when the image has loaded the extraction loop makes no pass, so
    the frame list is empty. *)
Theorem C5_nonpositive_count_still_fetches :
  forall (p : Props),
    frameCount p <= 0 ->
    (sheetUrl p <> "" -> loadEffect p = FetchImage (sheetUrl p) "anonymous") /\
    (loadEffect p = NoRequest <-> sheetUrl p = "") /\
    (forall img s, frames (onload p true img s) = []) /\
    (forall img s, frames (onload p false img s) = frames s).
Proof.
  intros p HF. unfold loadEffect.
  destruct (String.eqb_spec (sheetUrl p) "") as [He|Hne].
  - repeat split; intros; try congruence; try reflexivity.
    rewrite onload_frames, extractFrames_spec.
    replace (Z.to_nat (frameCount p)) with O by lia. reflexivity.
  - repeat split; intros; try congruence; try reflexivity.
    rewrite onload_frames, extractFrames_spec.
    replace (Z.to_nat (frameCount p)) with O by lia. reflexivity.
Qed.

End FrameExtraction.

(** ** Playback *)
Section Playback.

Variable par : Parent.

(** The two ways the playing flag can be wired. *)
Lemma wired_cases (p : Props) :
  wired par p ->
  (onPlayingChange par = None /\ externalIsPlaying p = None) \/
  (exists cb e,
     onPlayingChange par = Some cb /\ externalIsPlaying p = Some e /\
     forall b q, cb b q = withPlaying b q).
Proof.
  unfold wired. intros [H _].
  destruct (onPlayingChange par) as [cb|], (externalIsPlaying p) as [e|];
    try contradiction.
  - right. exists cb, e. auto.
  - left. auto.
Qed.

Lemma wired_speed (p q : Props) :
  wired par p -> externalIsPlaying q = externalIsPlaying p \/
                 (externalIsPlaying p <> None /\ externalIsPlaying q <> None) ->
  wired par q.
Proof.
  unfold wired. intros [H Hs] Hq. split; [|exact Hs].
  destruct Hq as [Hq|[Hp Hq]].
  - rewrite Hq. exact H.
  - destruct (onPlayingChange par), (externalIsPlaying p), (externalIsPlaying q);
      try contradiction; try congruence.
Qed.

Lemma isPlaying_setIsPlaying (b : bool) (y : Sys) :
  wired par (props y) -> isPlaying (setIsPlaying par b y) = b.
Proof.
  intros H. unfold setIsPlaying, isPlaying.
  destruct (wired_cases _ H) as [[Hc He]|(cb & e & Hc & He & Hcb)]; rewrite Hc.
  - cbn [props state onState]. rewrite He. reflexivity.
  - cbn [props state]. rewrite Hcb. reflexivity.
Qed.

Lemma state_setIsPlaying (b : bool) (y : Sys) :
  currentFrame (state (setIsPlaying par b y)) = currentFrame (state y) /\
  lastFrameTime (state (setIsPlaying par b y)) = lastFrameTime (state y) /\
  frames (state (setIsPlaying par b y)) = frames (state y) /\
  viewMode (state (setIsPlaying par b y)) = viewMode (state y).
Proof.
  unfold setIsPlaying. destruct (onPlayingChange par); repeat split.
Qed.

Lemma props_setIsPlaying (b : bool) (y : Sys) :
  wired par (props y) ->
  frameCount (props (setIsPlaying par b y)) = frameCount (props y) /\
  speed (props (setIsPlaying par b y)) = speed (props y) /\
  wired par (props (setIsPlaying par b y)).
Proof.
  intros H. unfold setIsPlaying.
  destruct (wired_cases _ H) as [[Hc He]|(cb & e & Hc & He & Hcb)]; rewrite Hc.
  - cbn [props onState]. auto.
  - cbn [props]. rewrite Hcb. split; [reflexivity|split; [reflexivity|]].
    apply (wired_speed (props y)); [exact H|].
    right. rewrite He. split; discriminate.
Qed.

Lemma isPlaying_onState (f : State -> State) (y : Sys) :
  internalIsPlaying (f (state y)) = internalIsPlaying (state y) ->
  isPlaying (onState f y) = isPlaying y.
Proof.
  intros H. unfold isPlaying, onState. cbn [props state]. now rewrite H.
Qed.

Lemma rem_in_range (a count : Z) :
  0 <= a -> 0 < count ->
  rem (Num a) (Num count) = Num (a mod count).
Proof.
  intros Ha Hc. unfold rem.
  destruct (Z.eqb_spec count 0); [lia|].
  now rewrite Z.rem_mod_nonneg by lia.
Qed.

(** A display frame that comes before the interval has passed, or while
    the loop is off, changes nothing. *)
Lemma tick_idle (t : Z) (y : Sys) :
  loopActive y = false \/ t - lastFrameTime (state y) < speed (props y) ->
  tick t y = y.
Proof.
  unfold tick, animate. intros [H|H].
  - now rewrite H.
  - destruct (loopActive y); [|reflexivity].
    destruct (Z.leb_spec (speed (props y)) (t - lastFrameTime (state y)));
      [lia|reflexivity].
Qed.

Lemma tick_advance (t : Z) (y : Sys) :
  loopActive y = true -> speed (props y) <= t - lastFrameTime (state y) ->
  tick t y =
  onState (setLastFrameTime t)
    (onState
       (setCurrentFrame
          (fun prev => rem (add prev (Num 1)) (Num (frameCount (props y)))))
       y).
Proof.
  unfold tick, animate. intros -> H.
  destruct (Z.leb_spec (speed (props y)) (t - lastFrameTime (state y)));
    [reflexivity|lia].
Qed.

Lemma handle_keeps_lastFrameTime (e : UiEvent) (y : Sys) :
  lastFrameTime (state (handle par e y)) = lastFrameTime (state y).
Proof.
  destruct e; cbn [handle];
    unfold showPreview, showSheet, togglePlaying, prevFrame, nextFrame,
      handleFrameClick, scrubTo, speedSlider, setIsPlaying;
    destruct (onPlayingChange par), (onSpeedChange par); reflexivity.
Qed.

(** C6. Under a wiring of the playing flag as the repository has it and a
    frame index within the frame count, every navigation control that
    can be operated (previous, next, a timeline frame, the frame slider)
    leaves the frame index at the target index modulo [frameCount] and
    the animation paused; the step and timeline handlers write
    [isPlaying = false] themselves, whatever the state. *)
Theorem C6_navigation_pauses :
  forall (y : Sys),
    wired par (props y) ->
    inRange y ->
    (forall (e : UiEvent) (y' : Sys),
       isSeek e = true ->
       dispatch par e y = Some y' ->
       exists c,
         target e y = Num c /\
         currentFrame (state y') = Num (c mod frameCount (props y)) /\
         frameCount (props y') = frameCount (props y) /\
         isPlaying y' = false) /\
    isPlaying (nextFrame par y) = false /\
    isPlaying (prevFrame par y) = false /\
    (forall index, isPlaying (handleFrameClick par index y) = false).
Proof.
  intros y Hw [(c & Hc & Hrange) Hframes].
  pose proof (isPlaying_setIsPlaying false y Hw) as Hpause.
  pose proof (state_setIsPlaying false y) as (Hcur & _).
  pose proof (props_setIsPlaying false y Hw) as (Hcount & _).
  assert (Hnext : isPlaying (nextFrame par y) = false).
  { unfold nextFrame. rewrite isPlaying_onState; [exact Hpause|reflexivity]. }
  assert (Hprev : isPlaying (prevFrame par y) = false).
  { unfold prevFrame. rewrite isPlaying_onState; [exact Hpause|reflexivity]. }
  assert (Hclick : forall index, isPlaying (handleFrameClick par index y) = false).
  { intros index. unfold handleFrameClick.
    rewrite !isPlaying_onState; [exact Hpause|reflexivity|reflexivity]. }
  split; [|auto].
  intros e y' Hseek Hd. unfold dispatch in Hd.
  destruct (enabled e y) eqn:Hen; [|discriminate].
  injection Hd as <-.
  destruct e; try discriminate; cbn [handle target].
  - (* previous *)
    exists (c + - 1). rewrite Hc. split; [reflexivity|].
    split; [|split; [exact Hcount|exact Hprev]].
    unfold prevFrame. cbn [onState state setCurrentFrame currentFrame].
    rewrite Hcur, Hc. cbn [sub neg add].
    rewrite rem_in_range by lia.
    f_equal. rewrite <- (Z.mod_add (c + - 1) 1 (frameCount (props y))) by lia.
    f_equal. lia.
  - (* next *)
    exists (c + 1). rewrite Hc. split; [reflexivity|].
    split; [|split; [exact Hcount|exact Hnext]].
    unfold nextFrame. cbn [onState state setCurrentFrame currentFrame].
    rewrite Hcur, Hc. cbn [add].
    apply rem_in_range; lia.
  - (* a timeline frame *)
    exists (Z.of_nat i). split; [reflexivity|].
    split; [|split; [exact Hcount|apply Hclick]].
    cbn [enabled] in Hen. apply Nat.ltb_lt in Hen.
    cbn [handleFrameClick onState state setCurrentFrame currentFrame].
    f_equal. symmetry. apply Z.mod_small. lia.
  - (* the frame slider *)
    exists value. split; [reflexivity|].
    cbn [enabled] in Hen.
    apply andb_prop in Hen as [Hen Hhi]. apply andb_prop in Hen as [Hen Hlo].
    apply andb_prop in Hen as [_ Hpaused].
    apply Z.leb_le in Hhi, Hlo. apply negb_true_iff in Hpaused.
    split; [|split; [reflexivity|]].
    + cbn [scrubTo onState state setCurrentFrame currentFrame].
      f_equal. symmetry. apply Z.mod_small. lia.
    + unfold scrubTo. rewrite isPlaying_onState; [exact Hpaused|reflexivity].
Qed.

(** The loop is on exactly when the animation is playing, the view is the
    preview and frames have been extracted. *)
Lemma loopActive_iff (y : Sys) :
  loopActive y = true <->
  isPlaying y = true /\ viewMode (state y) = preview /\ frames (state y) <> [].
Proof.
  unfold loopActive, inPreview. split.
  - intros H. apply andb_prop in H as [H Hf]. apply andb_prop in H as [Hp Hv].
    split; [exact Hp|]. split.
    + destruct (viewMode (state y)); [reflexivity|discriminate].
    + intros E. rewrite E in Hf. discriminate.
  - intros (Hp & Hv & Hf). rewrite Hp, Hv. cbn [ViewMode_eqb andb].
    destruct (frames (state y)); [contradiction|reflexivity].
Qed.

(** C7. A display frame advances the animation only when it is playing
    and at least [speed] has passed since [lastFrameTime], and a state
    it has changed is the state with the frame index moved to the next
    one modulo [frameCount] and the timestamp of this very frame stored
    in [lastFrameTime]; any other display frame changes nothing.  While
    the animation is playing in the preview with frames extracted, every
    display frame that is due does advance in this way.  No control and
    no image event writes [lastFrameTime], so it always is the timestamp
    of the last advance that took place. *)
Theorem C7_timed_advance :
  forall (t : Z) (y : Sys),
    (tick t y <> y ->
       isPlaying y = true /\
       speed (props y) <= t - lastFrameTime (state y) /\
       tick t y =
         onState (setLastFrameTime t)
           (onState
              (setCurrentFrame
                 (fun prev => rem (add prev (Num 1)) (Num (frameCount (props y)))))
              y)) /\
    (isPlaying y = false \/ t - lastFrameTime (state y) < speed (props y) ->
       tick t y = y) /\
    (isPlaying y = true ->
     viewMode (state y) = preview ->
     frames (state y) <> [] ->
     speed (props y) <= t - lastFrameTime (state y) ->
       currentFrame (state (tick t y)) =
         rem (add (currentFrame (state y)) (Num 1)) (Num (frameCount (props y))) /\
       (forall c, currentFrame (state y) = Num c ->
          0 <= c -> 0 < frameCount (props y) ->
          currentFrame (state (tick t y)) = Num ((c + 1) mod frameCount (props y))) /\
       lastFrameTime (state (tick t y)) = t /\
       isPlaying (tick t y) = isPlaying y /\
       props (tick t y) = props y /\
       frames (state (tick t y)) = frames (state y) /\
       viewMode (state (tick t y)) = viewMode (state y)) /\
    (forall e, lastFrameTime (state (handle par e y)) = lastFrameTime (state y)) /\
    (forall p ctx img,
       lastFrameTime (onload p ctx img (state y)) = lastFrameTime (state y)) /\
    lastFrameTime (onerror (state y)) = lastFrameTime (state y).
Proof.
  intros t y.
  split; [|split; [|split; [|split; [|split]]]].
  - intros H.
    destruct (loopActive y) eqn:Hon;
      [|exfalso; apply H; apply tick_idle; left; exact Hon].
    destruct (Z.le_gt_cases (speed (props y)) (t - lastFrameTime (state y)))
      as [Hle|Hgt];
      [|exfalso; apply H; apply tick_idle; right; lia].
    split; [apply loopActive_iff in Hon; tauto|].
    split; [exact Hle|]. apply tick_advance; assumption.
  - intros [Hp|Hlt]; apply tick_idle.
    + left. unfold loopActive. now rewrite Hp.
    + right. exact Hlt.
  - intros Hp Hv Hf Hdue.
    assert (Hon : loopActive y = true) by (apply loopActive_iff; auto).
    rewrite tick_advance by assumption.
    split; [reflexivity|]. split; [|repeat split].
    intros c Hc Hc0 HF.
    cbn [onState state setLastFrameTime setCurrentFrame currentFrame].
    rewrite Hc. cbn [add]. apply rem_in_range; lia.
  - intros e. apply handle_keeps_lastFrameTime.
  - intros p ctx img. unfold onload. destruct ctx; reflexivity.
  - reflexivity.
Qed.

(** C8. The play/pause button flips the playing flag and leaves the frame
    index alone; pressed twice, flag and frame index are back where they
    were, also when display frames arrive in between at a time at which
    the frame interval has not yet passed. *)
Theorem C8_toggle_keeps_frame :
  forall (y : Sys),
    wired par (props y) ->
    isPlaying (togglePlaying par y) = negb (isPlaying y) /\
    currentFrame (state (togglePlaying par y)) = currentFrame (state y) /\
    isPlaying (togglePlaying par (togglePlaying par y)) = isPlaying y /\
    currentFrame (state (togglePlaying par (togglePlaying par y))) =
      currentFrame (state y) /\
    (forall t,
       t - lastFrameTime (state y) < speed (props y) ->
       currentFrame
         (state (tick t (togglePlaying par (tick t (togglePlaying par (tick t y))))))
       = currentFrame (state y)).
Proof.
  intros y Hw.
  assert (Hflip : forall z, wired par (props z) ->
            isPlaying (togglePlaying par z) = negb (isPlaying z)).
  { intros z Hz. apply isPlaying_setIsPlaying. exact Hz. }
  assert (Hst : forall z,
            currentFrame (state (togglePlaying par z)) = currentFrame (state z) /\
            lastFrameTime (state (togglePlaying par z)) = lastFrameTime (state z)).
  { intros z. unfold togglePlaying.
    destruct (state_setIsPlaying (negb (isPlaying z)) z) as (H1 & H2 & _). auto. }
  assert (Hpr : forall z, wired par (props z) ->
            speed (props (togglePlaying par z)) = speed (props z) /\
            wired par (props (togglePlaying par z))).
  { intros z Hz. unfold togglePlaying.
    destruct (props_setIsPlaying (negb (isPlaying z)) z Hz) as (_ & H2 & H3). auto. }
  destruct (Hpr y Hw) as [Hs1 Hw1].
  destruct (Hpr _ Hw1) as [Hs2 Hw2].
  destruct (Hst y) as [Hc1 Hl1].
  destruct (Hst (togglePlaying par y)) as [Hc2 Hl2].
  repeat split.
  - apply Hflip, Hw.
  - exact Hc1.
  - rewrite Hflip by exact Hw1. rewrite Hflip by exact Hw. apply negb_involutive.
  - congruence.
  - intros t Ht.
    rewrite (tick_idle t y) by (right; exact Ht).
    rewrite (tick_idle t (togglePlaying par y)) by (right; lia).
    rewrite tick_idle by (right; lia).
    congruence.
Qed.

(** *** The range of the frame index is an invariant *)

Lemma inRange_initial (p : Props) :
  0 < frameCount p -> inRange {| props := p; state := initialState |}.
Proof.
  intros H. split; [exists 0; split; [reflexivity|simpl; lia]|simpl; lia].
Qed.

Lemma setIsPlaying_keeps (b : bool) (y : Sys) :
  wired par (props y) -> inRange y ->
  inRange (setIsPlaying par b y) /\ wired par (props (setIsPlaying par b y)).
Proof.
  intros Hw [(c & Hc & Hr) Hf].
  destruct (props_setIsPlaying b y Hw) as (HF & _ & Hw').
  destruct (state_setIsPlaying b y) as (Hcur & _ & Hfr & _).
  split; [|exact Hw'].
  split; [exists c|]; rewrite ?HF, ?Hcur, ?Hfr; auto.
Qed.

Lemma onState_keeps (f : State -> State) (c : Z) (y : Sys) :
  inRange y ->
  currentFrame (f (state y)) = Num c -> 0 <= c < frameCount (props y) ->
  frames (f (state y)) = frames (state y) ->
  inRange (onState f y).
Proof.
  intros [_ Hf] Hc Hr Hfr. split; cbn [onState props state].
  - exists c. auto.
  - now rewrite Hfr.
Qed.

Lemma handle_keeps (e : UiEvent) (y : Sys) :
  wired par (props y) -> inRange y -> enabled e y = true ->
  inRange (handle par e y) /\ wired par (props (handle par e y)).
Proof.
  intros Hw Hin Hen.
  pose proof Hin as [(c & Hc & Hr) Hf].
  destruct e; cbn [handle].
  - split; [|exact Hw]. apply (onState_keeps _ c); auto.
  - unfold showSheet. apply setIsPlaying_keeps; [exact Hw|].
    apply (onState_keeps _ c); auto.
  - apply setIsPlaying_keeps; assumption.
  - destruct (setIsPlaying_keeps false y Hw Hin) as [Hin' Hw'].
    destruct (props_setIsPlaying false y Hw) as (HF & _).
    destruct (state_setIsPlaying false y) as (Hcur & _).
    split; [|exact Hw']. unfold prevFrame.
    apply (onState_keeps _ ((c + - 1 + frameCount (props y))
                              mod frameCount (props y))); auto.
    + cbn [setCurrentFrame currentFrame]. rewrite Hcur, Hc. cbn [sub neg add].
      apply rem_in_range; lia.
    + rewrite HF. apply Z.mod_pos_bound. lia.
  - destruct (setIsPlaying_keeps false y Hw Hin) as [Hin' Hw'].
    destruct (props_setIsPlaying false y Hw) as (HF & _).
    destruct (state_setIsPlaying false y) as (Hcur & _).
    split; [|exact Hw']. unfold nextFrame.
    apply (onState_keeps _ ((c + 1) mod frameCount (props y))); auto.
    + cbn [setCurrentFrame currentFrame]. rewrite Hcur, Hc. cbn [add].
      apply rem_in_range; lia.
    + rewrite HF. apply Z.mod_pos_bound. lia.
  - destruct (setIsPlaying_keeps false y Hw Hin) as [Hin' Hw'].
    destruct (props_setIsPlaying false y Hw) as (HF & _).
    cbn [enabled] in Hen. apply Nat.ltb_lt in Hen.
    split; [|exact Hw']. unfold handleFrameClick.
    destruct (state_setIsPlaying false y) as (_ & _ & Hfr & _).
    apply (onState_keeps _ (Z.of_nat i)); [|reflexivity| |reflexivity].
    + destruct Hin' as [(c' & Hc' & Hr') Hf'].
      apply (onState_keeps _ c'); auto. split; [eauto|exact Hf'].
    + cbn [onState props]. rewrite HF. lia.
  - cbn [enabled] in Hen.
    apply andb_prop in Hen as [Hen Hhi]. apply andb_prop in Hen as [_ Hlo].
    apply Z.leb_le in Hhi, Hlo.
    split; [|exact Hw]. apply (onState_keeps _ value); auto. lia.
  - pose proof Hw as [Hp Hs]. unfold speedSlider.
    destruct (onSpeedChange par) as [cb|] eqn:Hcb; [|split; assumption].
    cbn [props state]. rewrite Hs. split.
    + split; [exists c; auto|exact Hf].
    + apply (wired_speed (props y)); [exact Hw|left; reflexivity].
Qed.

Lemma tick_keeps (t : Z) (y : Sys) : inRange y -> inRange (tick t y).
Proof.
  intros Hin. pose proof Hin as [(c & Hc & Hr) Hf].
  unfold tick, animate.
  destruct (loopActive y); [|exact Hin].
  destruct (speed (props y) <=? t - lastFrameTime (state y)); [|exact Hin].
  assert (Hnext : rem (add (Num c) (Num 1)) (Num (frameCount (props y))) =
                  Num ((c + 1) mod frameCount (props y)))
    by (cbn [add]; apply rem_in_range; lia).
  assert (Hbound : 0 <= (c + 1) mod frameCount (props y) < frameCount (props y))
    by (apply Z.mod_pos_bound; lia).
  apply (onState_keeps _ ((c + 1) mod frameCount (props y)));
    [|cbn [onState state setLastFrameTime setCurrentFrame currentFrame];
      rewrite Hc; exact Hnext
     |exact Hbound|reflexivity].
  apply (onState_keeps _ ((c + 1) mod frameCount (props y)));
    [exact Hin|cbn [setCurrentFrame currentFrame]; rewrite Hc; exact Hnext
    |exact Hbound|reflexivity].
Qed.

Lemma onload_keeps (ctx : bool) (img : Image) (y : Sys) :
  inRange y -> inRange (onState (onload (props y) ctx img) y).
Proof.
  intros Hin. pose proof Hin as [(c & Hc & Hr) Hf].
  split; cbn [onState props state].
  - exists c. split; [|exact Hr]. unfold onload. destruct ctx; exact Hc.
  - unfold onload. destruct ctx; [|exact Hf].
    cbn [setFrames frames]. rewrite extractFrames_length. lia.
Qed.

End Playback.

(** ** Output URLs *)
Section OutputUrl.

Lemma prefix_app (p s t : string) :
  String.prefix p s = true -> String.prefix p (s ++ t) = true.
Proof.
  revert s. induction p as [|a p IH]; intros s H.
  - destruct s; [destruct t|]; reflexivity.
  - destruct s as [|b s]; [discriminate|].
    cbn [String.prefix append] in *.
    destruct (ascii_dec a b); [apply IH; exact H|discriminate].
Qed.

Lemma substring_all (s : string) : substring 0 (String.length s) s = s.
Proof.
  induction s as [|c s IH]; [reflexivity|].
  cbn [String.length substring]. now rewrite IH.
Qed.

(** A path that starts with a slash is that slash and the rest. *)
Lemma leading_slash (path : string) :
  startsWith path "/" = true ->
  path = ("/" ++ withoutLeadingSlash path)%string.
Proof.
  unfold withoutLeadingSlash. intros H. rewrite H.
  unfold startsWith in H. destruct path as [|c rest]; [discriminate|].
  cbn [String.prefix] in H.
  destruct (ascii_dec "/" c) as [<-|]; [|discriminate].
  cbn [String.length Nat.sub substring append].
  rewrite Nat.sub_0_r, substring_all. reflexivity.
Qed.

(** C10. When the sprite base URL starts with [http], [getOutputUrl] applied
    twice is [getOutputUrl] applied once.  A path that starts with [http]
    comes back as it is; any other path comes back as the base URL, one
    slash, and the path without the leading slash it may have: the slash
    is added only when the path does not bring it. *)
Theorem C10_getOutputUrl_idempotent :
  forall (env : Env) (path : string),
    startsWith (SPRITE_API_BASE env) "http" = true ->
    getOutputUrl env (getOutputUrl env path) = getOutputUrl env path /\
    (startsWith path "http" = true -> getOutputUrl env path = path) /\
    (startsWith path "http" = false ->
       getOutputUrl env path =
         (SPRITE_API_BASE env ++ "/" ++ withoutLeadingSlash path)%string /\
       (startsWith path "/" = true ->
          getOutputUrl env path = (SPRITE_API_BASE env ++ path)%string) /\
       (startsWith path "/" = false ->
          getOutputUrl env path = (SPRITE_API_BASE env ++ "/" ++ path)%string)).
Proof.
  intros env path Hbase.
  assert (Hother : startsWith path "http" = false ->
            getOutputUrl env path =
            (SPRITE_API_BASE env
               ++ (if startsWith path "/" then "" else "/") ++ path)%string)
    by (intros H; unfold getOutputUrl; now rewrite H).
  destruct (startsWith path "http") eqn:Hp.
  - assert (Hsame : getOutputUrl env path = path)
      by (unfold getOutputUrl; now rewrite Hp).
    split; [now rewrite !Hsame|split; [intros _; exact Hsame|discriminate]].
  - rewrite (Hother eq_refl).
    split; [|split; [discriminate|intros _]].
    + unfold getOutputUrl, startsWith.
      rewrite prefix_app by exact Hbase. reflexivity.
    + destruct (startsWith path "/") eqn:Hs.
      * split; [|split; [reflexivity|discriminate]].
        rewrite (leading_slash path Hs) at 1. reflexivity.
      * split; [|split; [discriminate|reflexivity]].
        unfold withoutLeadingSlash. rewrite Hs. reflexivity.
Qed.

End OutputUrl.

(** ** Sprite generation errors *)
Section SpriteErrors.

Lemma classify_moderation (msg : string) :
  classify msg = moderation <->
  includes (toLowerCase msg) "moderation" || includes (toLowerCase msg) "content"
  = true.
Proof.
  unfold classify.
  destruct (includes (toLowerCase msg) "moderation"
            || includes (toLowerCase msg) "content").
  - split; reflexivity.
  - destruct (includes (toLowerCase msg) "network"
              || includes (toLowerCase msg) "fetch"
              || includes (toLowerCase msg) "timeout"); split; discriminate.
Qed.

(** The animations [handleGenerate] passes on: the selection, or
    [undefined] when nothing is selected. *)
Lemma handleGenerate_sprite_caught (R : Type) (env : Env) (backend : Backend)
  (server : SpriteRequest -> Fetched (SpriteJson R))
  (prompt preset : string) (selected : list string) (fibo : bool)
  (pg : Page) (m : string) :
  isBlank prompt = false ->
  generateSprite server prompt preset
    (match selected with [] => None | _ => Some selected end) (Some fibo)
  = Threw m ->
  handleGenerate env backend server ModeSprite prompt preset selected fibo pg
  = onCaught m (onBegin pg).
Proof.
  intros Hblank Hthrow. unfold handleGenerate. now rewrite Hblank, Hthrow.
Qed.

End SpriteErrors.

(** ** The polling loop of [generate3D] *)
Section Polling.

Variable env : Env.
Variable backend : Backend.
Variable onProgress : bool.

Lemma polls_app (l1 l2 : list Event) :
  polls (l1 ++ l2) = (polls l1 + polls l2)%nat.
Proof. unfold polls. now rewrite filter_app, length_app. Qed.

Lemma schedule_app (l1 l2 : list Event) :
  schedule (l1 ++ l2) = (schedule l1 ++ schedule l2)%list.
Proof. unfold schedule. apply filter_app. Qed.

Lemma polls_onePass (jobId s : string) :
  polls (onePass onProgress jobId s) = 1%nat.
Proof.
  unfold onePass. destruct (stageMessage s), onProgress; reflexivity.
Qed.

Lemma schedule_onePass (jobId s : string) :
  schedule (onePass onProgress jobId s) = [EvWait 5000; EvStatus jobId].
Proof.
  unfold onePass. destruct (stageMessage s), onProgress; reflexivity.
Qed.

Lemma polls_prelude (prompt jobId : string) :
  polls (prelude onProgress prompt jobId) = 0%nat.
Proof. unfold prelude. destruct onProgress; reflexivity. Qed.

Lemma schedule_prelude (prompt jobId : string) :
  schedule (prelude onProgress prompt jobId) = [].
Proof. unfold prelude. destruct onProgress; reflexivity. Qed.

(** One pass of the loop: wait, ask, then stop on a failed request, on
    [completed] and on [failed], and go on otherwise. *)
Lemma pollLoop_step (jobId : string) (a : nat) (log : list Event) :
  pollLoop env backend onProgress jobId (S a) log =
  match pollOutcome backend jobId (polls log) with
  | Threw m => (Threw m, (log ++ [EvWait 5000; EvStatus jobId])%list)
  | Returned st =>
      if (status st =? "completed")%string then
        (Returned (completedResult env st),
         (log ++ onePass onProgress jobId (status st))%list)
      else if (status st =? "failed")%string then
        (Threw (JsString.orElse (error st) "Pipeline failed"),
         (log ++ onePass onProgress jobId (status st))%list)
      else
        pollLoop env backend onProgress jobId a
          (log ++ onePass onProgress jobId (status st))%list
  end.
Proof.
  cbn [pollLoop]. unfold bind at 1, wait, emit.
  unfold bind at 1, get3DJobStatus, pollOutcome.
  unfold bind at 1, emit.
  rewrite polls_app. cbn [polls filter isStatus List.length]. rewrite Nat.add_0_r.
  rewrite <- app_assoc. cbn [app].
  destruct (jobStatus backend (polls log) jobId) as [m|code [m|st]];
    [reflexivity|destruct (ok code); reflexivity|].
  destruct (ok code); [|reflexivity].
  unfold ret at 1. unfold onePass, stageMessage.
  destruct (String.eqb_spec (status st) "pending") as [E|_].
  { rewrite E. cbn [String.eqb Ascii.eqb Bool.eqb].
    unfold bind, progress, emit, ret. destruct onProgress;
      rewrite <- ?app_assoc; cbn [app]; rewrite ?app_nil_r; reflexivity. }
  destruct (String.eqb_spec (status st) "generating_image") as [E|_].
  { rewrite E. cbn [String.eqb Ascii.eqb Bool.eqb].
    unfold bind, progress, emit, ret. destruct onProgress;
      rewrite <- ?app_assoc; cbn [app]; rewrite ?app_nil_r; reflexivity. }
  destruct (String.eqb_spec (status st) "generating_3d") as [E|_].
  { rewrite E. cbn [String.eqb Ascii.eqb Bool.eqb].
    unfold bind, progress, emit, ret. destruct onProgress;
      rewrite <- ?app_assoc; cbn [app]; rewrite ?app_nil_r; reflexivity. }
  destruct (String.eqb_spec (status st) "completed") as [E|_].
  { unfold bind, progress, emit, ret. destruct onProgress;
      rewrite <- ?app_assoc; cbn [app]; rewrite ?app_nil_r; reflexivity. }
  destruct (String.eqb_spec (status st) "failed") as [E|_].
  { unfold throw. reflexivity. }
  reflexivity.
Qed.

Lemma keepsGoing_outcome (jobId : string) (n : nat) :
  keepsGoing backend jobId n ->
  exists st,
    pollOutcome backend jobId n = Returned st /\
    (status st =? "completed")%string = false /\
    (status st =? "failed")%string = false.
Proof.
  intros (code & st & Hr & Hok & Ht). exists st.
  unfold pollOutcome. rewrite Hr, Hok.
  unfold terminal in Ht. apply orb_false_iff in Ht. tauto.
Qed.

Lemma outcome_keepsGoing (jobId : string) (n : nat) (st : JobStatus) :
  pollOutcome backend jobId n = Returned st ->
  (status st =? "completed")%string = false ->
  (status st =? "failed")%string = false ->
  keepsGoing backend jobId n.
Proof.
  unfold pollOutcome, keepsGoing. intros H Hc Hf.
  destruct (jobStatus backend n jobId) as [m|code [m|st']]; try discriminate;
    destruct (ok code) eqn:Hok; try discriminate.
  injection H as ->. exists code, st. unfold terminal. rewrite Hc, Hf. auto.
Qed.

(** With a status that never ends the polling, the loop makes all its
    passes, each a wait of five seconds and one status request, and
    then times out. *)
Lemma pollLoop_exhausts (jobId : string) :
  forall (a : nat) (log : list Event),
    (forall i, (i < a)%nat -> keepsGoing backend jobId (polls log + i)) ->
    exists log',
      pollLoop env backend onProgress jobId a log =
        (Threw "Pipeline timed out", log') /\
      polls log' = (polls log + a)%nat /\
      schedule log' = (schedule log ++ fixedSchedule jobId a)%list.
Proof.
  induction a as [|a IH]; intros log H.
  - exists log. cbn [pollLoop]. unfold throw, fixedSchedule.
    cbn [repeat List.concat]. rewrite app_nil_r, Nat.add_0_r. auto.
  - rewrite pollLoop_step.
    destruct (keepsGoing_outcome jobId (polls log)) as (st & Ho & Hc & Hf).
    { rewrite <- (Nat.add_0_r (polls log)). apply H. lia. }
    rewrite Ho, Hc, Hf.
    destruct (IH (log ++ onePass onProgress jobId (status st))%list)
      as (log' & Hrun & Hpolls & Hsched).
    { intros i Hi. rewrite polls_app, polls_onePass.
      replace (polls log + 1 + i)%nat with (polls log + S i)%nat by lia.
      apply H. lia. }
    exists log'. split; [exact Hrun|].
    rewrite Hpolls, Hsched, polls_app, polls_onePass, schedule_app,
      schedule_onePass.
    split; [lia|]. rewrite <- app_assoc. reflexivity.
Qed.

(** Whatever the backend answers, the loop asks at most once per pass. *)
Lemma pollLoop_bound (jobId : string) :
  forall (a : nat) (log : list Event),
    (polls (snd (pollLoop env backend onProgress jobId a log))
     <= polls log + a)%nat.
Proof.
  induction a as [|a IH]; intros log.
  - cbn [pollLoop]. unfold throw. cbn [snd]. lia.
  - rewrite pollLoop_step.
    destruct (pollOutcome backend jobId (polls log)) as [st|m].
    + destruct (status st =? "completed")%string;
        [cbn [snd]; rewrite polls_app, polls_onePass; lia|].
      destruct (status st =? "failed")%string;
        [cbn [snd]; rewrite polls_app, polls_onePass; lia|].
      specialize (IH (log ++ onePass onProgress jobId (status st))%list).
      rewrite polls_app, polls_onePass in IH. lia.
    + cbn [snd]. rewrite polls_app.
      change (polls [EvWait 5000; EvStatus jobId]) with 1%nat. lia.
Qed.

(** A status request that fails ends the loop with its error. *)
Lemma pollLoop_fails_at (jobId m : string) :
  forall (n a : nat) (log : list Event),
    (n < a)%nat ->
    (forall i, (i < n)%nat -> keepsGoing backend jobId (polls log + i)) ->
    pollOutcome backend jobId (polls log + n) = Threw m ->
    exists log',
      pollLoop env backend onProgress jobId a log = (Threw m, log') /\
      polls log' = (polls log + S n)%nat.
Proof.
  induction n as [|n IH]; intros a log Hn Hgo Hfail;
    (destruct a as [|a]; [lia|]); rewrite pollLoop_step.
  - rewrite Nat.add_0_r in Hfail. rewrite Hfail.
    eexists. split; [reflexivity|]. rewrite polls_app.
    change (polls [EvWait 5000; EvStatus jobId]) with 1%nat. lia.
  - destruct (keepsGoing_outcome jobId (polls log)) as (st & Ho & Hc & Hf).
    { rewrite <- (Nat.add_0_r (polls log)). apply Hgo. lia. }
    rewrite Ho, Hc, Hf.
    destruct (IH a (log ++ onePass onProgress jobId (status st))%list)
      as (log' & Hrun & Hpolls).
    + lia.
    + intros i Hi. rewrite polls_app, polls_onePass.
      replace (polls log + 1 + i)%nat with (polls log + S i)%nat by lia.
      apply Hgo. lia.
    + rewrite polls_app, polls_onePass.
      replace (polls log + 1 + n)%nat with (polls log + S n)%nat by lia.
      exact Hfail.
    + exists log'. split; [exact Hrun|].
      rewrite Hpolls, polls_app, polls_onePass. lia.
Qed.

(** Every error of the loop is a failed status request, a [failed]
    status, or the timeout after the last pass. *)
Lemma pollLoop_throws (jobId : string) :
  forall (a : nat) (log log' : list Event) (m : string),
    pollLoop env backend onProgress jobId a log = (Threw m, log') ->
    (exists n, (n < a)%nat /\
       pollOutcome backend jobId (polls log + n) = Threw m /\
       polls log' = (polls log + S n)%nat) \/
    (exists n st, (n < a)%nat /\
       pollOutcome backend jobId (polls log + n) = Returned st /\
       status st = "failed" /\
       m = JsString.orElse (error st) "Pipeline failed" /\
       polls log' = (polls log + S n)%nat) \/
    ((forall i, (i < a)%nat -> keepsGoing backend jobId (polls log + i)) /\
     m = "Pipeline timed out" /\ polls log' = (polls log + a)%nat).
Proof.
  induction a as [|a IH]; intros log log' m Hrun.
  - cbn [pollLoop] in Hrun. unfold throw in Hrun. injection Hrun as <- <-.
    right. right. split; [intros i Hi; lia|]. split; [reflexivity|lia].
  - rewrite pollLoop_step in Hrun.
    destruct (pollOutcome backend jobId (polls log)) as [st|m0] eqn:Ho.
    + destruct (String.eqb_spec (status st) "completed") as [_|Hc];
        [discriminate|].
      destruct (String.eqb_spec (status st) "failed") as [Hf|Hf].
      * injection Hrun as <- <-. right. left. exists 0%nat, st.
        rewrite Nat.add_0_r, polls_app, polls_onePass.
        repeat split; auto; lia.
      * apply IH in Hrun. rewrite polls_app, polls_onePass in Hrun.
        destruct Hrun as [(n & Hn & Hp & Hl)|[(n & st' & Hn & Hp & Hs & Hm & Hl)
                                             |(Hgo & Hm & Hl)]].
        -- left. exists (S n).
           replace (polls log + S n)%nat with (polls log + 1 + n)%nat by lia.
           repeat split; auto; lia.
        -- right. left. exists (S n), st'.
           replace (polls log + S n)%nat with (polls log + 1 + n)%nat by lia.
           repeat split; auto; lia.
        -- right. right. split; [|split; [exact Hm|lia]].
           intros [|i] Hi.
           ++ rewrite Nat.add_0_r. apply (outcome_keepsGoing _ _ st Ho).
              ** now apply String.eqb_neq.
              ** now apply String.eqb_neq.
           ++ replace (polls log + S i)%nat with (polls log + 1 + i)%nat by lia.
              apply Hgo. lia.
    + injection Hrun as <- <-. left. exists 0%nat.
      rewrite Nat.add_0_r, polls_app.
      change (polls [EvWait 5000; EvStatus jobId]) with 1%nat.
      repeat split; auto; lia.
Qed.

(** A start that succeeds hands its job to the loop. *)
Lemma generate3D_started (prompt jobId : string) :
  started backend prompt jobId ->
  generate3D env backend prompt onProgress [] =
  pollLoop env backend onProgress jobId maxAttempts
    (prelude onProgress prompt jobId).
Proof.
  intros (code & r & Hr & Hok & Hid).
  unfold generate3D, start3DPipeline, prelude, bind, progress, emit, ret.
  rewrite Hr, Hok, Hid. destruct onProgress; reflexivity.
Qed.

Lemma start3DPipeline_run (prompt : string) (log : list Event) :
  start3DPipeline backend prompt log =
  (startOutcome backend prompt, (log ++ [EvStart prompt])%list).
Proof.
  unfold start3DPipeline, startOutcome, bind, emit, throw, ret.
  destruct (startPipeline backend prompt) as [m|code [m|r]];
    try destruct (ok code); reflexivity.
Qed.

(** A start that fails makes no status request. *)
Lemma generate3D_not_started (prompt m : string) :
  startOutcome backend prompt = Threw m ->
  exists log,
    generate3D env backend prompt onProgress [] = (Threw m, log) /\
    polls log = 0%nat.
Proof.
  intros H. unfold generate3D. unfold bind at 1.
  unfold progress at 1.
  destruct onProgress; [unfold emit at 1|unfold ret at 1]; unfold bind at 1;
    rewrite start3DPipeline_run, H; eexists; split; reflexivity.
Qed.

Lemma generate3D_bound (prompt : string) :
  (polls (snd (generate3D env backend prompt onProgress [])) <= maxAttempts)%nat.
Proof.
  destruct (startOutcome backend prompt) as [r|m] eqn:Hs.
  - rewrite (generate3D_started prompt (start_job_id r)).
    + pose proof (pollLoop_bound (start_job_id r) maxAttempts
                    (prelude onProgress prompt (start_job_id r))) as H.
      rewrite polls_prelude in H. exact H.
    + unfold startOutcome in Hs. unfold started.
      destruct (startPipeline backend prompt) as [m0|code [m0|r']];
        try discriminate; destruct (ok code) eqn:Hok; try discriminate.
      injection Hs as ->. exists code, r. auto.
  - destruct (generate3D_not_started prompt m Hs) as (log & -> & Hp).
    cbn [snd]. rewrite Hp. lia.
Qed.

End Polling.

Section Generate3D.

(** C2. When the pipeline has started and every one of the 120 status
    requests is answered with a status that is neither [completed] nor
    [failed], [generate3D] makes exactly 120 status requests, each after
    a wait of 5000 ms, and then throws the timeout error; and whatever
    the backend answers, no run makes more than 120 status requests. *)
Theorem C2_always_pending_times_out :
  forall (env : Env) (backend : Backend) (prompt : string)
         (onProgress : bool) (jobId : string),
    started backend prompt jobId ->
    (forall n, (n < maxAttempts)%nat -> keepsGoing backend jobId n) ->
    exists log,
      generate3D env backend prompt onProgress [] =
        (Threw "Pipeline timed out", log) /\
      polls log = 120%nat /\
      schedule log = fixedSchedule jobId 120 /\
      (forall env' backend' prompt' onProgress',
         (polls (snd (generate3D env' backend' prompt' onProgress' []))
          <= 120)%nat).
Proof.
  intros env backend prompt onProgress jobId Hstart Hgo.
  rewrite (generate3D_started env backend onProgress prompt jobId Hstart).
  destruct (pollLoop_exhausts env backend onProgress jobId maxAttempts
              (prelude onProgress prompt jobId)) as (log & Hrun & Hpolls & Hsched).
  { intros i Hi. rewrite polls_prelude. apply Hgo. exact Hi. }
  exists log. rewrite polls_prelude in Hpolls. rewrite schedule_prelude in Hsched.
  repeat split; try assumption.
  intros env' backend' prompt' onProgress'. apply generate3D_bound.
Qed.

(** C3. When the pipeline has started and the first status request is
    answered with [completed], [generate3D] returns on that request, after
    one status request, with the image URL of the answer (the empty
    string when it has none) and its model URL; a model URL that starts
    with [/] comes back with the 3D base URL put before it, any other
    model URL as it is. *)
Theorem C3_completed_first_poll :
  forall (env : Env) (backend : Backend) (prompt : string)
         (onProgress : bool) (jobId : string) (code : Z) (st : JobStatus),
    started backend prompt jobId ->
    jobStatus backend 0 jobId = Responded code (inr st) ->
    ok code = true ->
    status st = "completed" ->
    exists r log,
      generate3D env backend prompt onProgress [] = (Returned r, log) /\
      polls log = 1%nat /\
      imageUrl r = match image_url st with Some u => u | None => "" end /\
      (forall m, model_url st = Some m ->
         startsWith m "/" = true ->
         modelUrl r = (MODEL_3D_API_BASE env ++ m)%string) /\
      (forall m, model_url st = Some m ->
         startsWith m "/" = false -> modelUrl r = m) /\
      (model_url st = None -> modelUrl r = "").
Proof.
  intros env backend prompt onProgress jobId code st Hstart Hreply Hok Hdone.
  rewrite (generate3D_started env backend onProgress prompt jobId Hstart).
  unfold maxAttempts. rewrite pollLoop_step, polls_prelude.
  unfold pollOutcome. rewrite Hreply, Hok, Hdone. cbn [String.eqb Ascii.eqb Bool.eqb].
  eexists. eexists. split; [reflexivity|].
  rewrite polls_app, polls_prelude, polls_onePass.
  split; [reflexivity|]. unfold completedResult. cbn [imageUrl modelUrl].
  split; [|split; [|split]].
  - unfold JsString.orElse. destruct (image_url st) as [u|]; [|reflexivity].
    destruct (String.eqb_spec u ""); congruence.
  - intros m Hm Hs. rewrite Hm. unfold JsString.orElse.
    destruct (String.eqb_spec m "") as [->|_]; [discriminate|].
    now rewrite Hs.
  - intros m Hm Hs. rewrite Hm. unfold JsString.orElse.
    destruct (String.eqb_spec m "") as [->|_]; [reflexivity|].
    now rewrite Hs.
  - intros Hm. rewrite Hm. reflexivity.
Qed.

(** C4, as the code has it. A status request that fails inside the loop
    is not tried again: when the requests before it were answered with
    a status that does not end the polling, [generate3D] throws the error
    of the failed request right after it, and [handleGenerate] puts an
    error message on the page.  After a start that succeeded,
    [generate3D] throws in three cases only: a status request failed,
    the backend reported [failed], or all 120 passes went by. *)
Theorem C4_poll_failure_surfaces :
  forall (env : Env) (backend : Backend) (prompt : string)
         (onProgress : bool) (jobId : string),
    started backend prompt jobId ->
    (forall n m,
       (n < maxAttempts)%nat ->
       (forall i, (i < n)%nat -> keepsGoing backend jobId i) ->
       pollOutcome backend jobId n = Threw m ->
       (exists log,
          generate3D env backend prompt onProgress [] = (Threw m, log) /\
          polls log = S n) /\
       (forall (R : Type) (server : SpriteRequest -> Fetched (SpriteJson R))
               preset animations fibo pg,
          isBlank prompt = false ->
          generationStatus
            (handleGenerate env backend server Mode3D prompt preset
               animations fibo pg) = failed /\
          errorMessage
            (handleGenerate env backend server Mode3D prompt preset
               animations fibo pg) <> None)) /\
    (forall m log,
       generate3D env backend prompt onProgress [] = (Threw m, log) ->
       (exists n, (n < maxAttempts)%nat /\
          pollOutcome backend jobId n = Threw m /\ polls log = S n) \/
       (exists n st, (n < maxAttempts)%nat /\
          pollOutcome backend jobId n = Returned st /\
          status st = "failed" /\
          m = JsString.orElse (error st) "Pipeline failed" /\
          polls log = S n) \/
       ((forall i, (i < maxAttempts)%nat -> keepsGoing backend jobId i) /\
        m = "Pipeline timed out" /\ polls log = maxAttempts)).
Proof.
  intros env backend prompt onProgress jobId Hstart. split.
  - intros n m Hn Hgo Hfail.
    assert (Hrun : forall onP, exists log,
              generate3D env backend prompt onP [] = (Threw m, log) /\
              polls log = S n).
    { intros onP.
      rewrite (generate3D_started env backend onP prompt jobId Hstart).
      destruct (pollLoop_fails_at env backend onP jobId m n maxAttempts
                  (prelude onP prompt jobId)) as (log & Hrun & Hpolls).
      - exact Hn.
      - intros i Hi. rewrite polls_prelude. apply Hgo. exact Hi.
      - rewrite polls_prelude. exact Hfail.
      - exists log. rewrite polls_prelude in Hpolls. auto. }
    split; [apply Hrun|].
    intros R server preset animations fibo pg Hblank.
    unfold handleGenerate. rewrite Hblank.
    destruct (Hrun true) as (log & -> & _). cbn [fst].
    split; [reflexivity|discriminate].
  - intros m log Hrun.
    rewrite (generate3D_started env backend onProgress prompt jobId Hstart)
      in Hrun.
    apply pollLoop_throws in Hrun. rewrite polls_prelude in Hrun.
    exact Hrun.
Qed.

End Generate3D.

(** ** The theorems at the sample inputs *)
Section AtSamples.

Import Samples.

Lemma C1_witness :
  Z.of_nat (List.length (frames (onload walkProps true sheet384 initialState)))
  = frameCount walkProps.
Proof.
  apply (C1_frames_cover_columns walkProps sheet384 initialState).
  - reflexivity.
  - reflexivity.
  - reflexivity.
  - vm_compute. discriminate.
Defined.

Lemma C2_witness :
  exists log,
    generate3D env alwaysPending "robot" true [] =
      (Threw "Pipeline timed out", log) /\
    polls log = 120%nat /\
    schedule log = fixedSchedule "3f2a9c1e-77" 120 /\
    (forall env' backend' prompt' onProgress',
       (polls (snd (generate3D env' backend' prompt' onProgress' []))
        <= 120)%nat).
Proof.
  apply (C2_always_pending_times_out env alwaysPending "robot" true
           "3f2a9c1e-77").
  - exists 200, {| start_job_id := "3f2a9c1e-77"; start_message := "started" |}.
    repeat split.
  - intros n _. exists 200, (pendingStatus "3f2a9c1e-77"). repeat split.
Defined.

Lemma C3_witness :
  exists r log,
    generate3D env doneAtOnce "robot" true [] = (Returned r, log) /\
    polls log = 1%nat /\
    imageUrl r = "https://cdn.example/robot.png" /\
    (forall m, Some "/models/robot.glb" = Some m ->
       startsWith m "/" = true ->
       modelUrl r = (MODEL_3D_API_BASE env ++ m)%string) /\
    (forall m, Some "/models/robot.glb" = Some m ->
       startsWith m "/" = false -> modelUrl r = m) /\
    (Some "/models/robot.glb" = None -> modelUrl r = "").
Proof.
  apply (C3_completed_first_poll env doneAtOnce "robot" true "3f2a9c1e-77"
           200 (completedStatus "3f2a9c1e-77")).
  - exists 200, {| start_job_id := "3f2a9c1e-77"; start_message := "started" |}.
    repeat split.
  - reflexivity.
  - reflexivity.
  - reflexivity.
Defined.

(** C4, refuted as stated: the first status request is answered with
    HTTP 503, no request is ever answered with [failed], and still the
    run ends after one request with an error that the page shows. *)
Lemma C4_counterexample :
  fst (generate3D env oneHiccup "robot" true []) =
    Threw "Failed to get job status: 503" /\
  polls (snd (generate3D env oneHiccup "robot" true [])) = 1%nat /\
  (forall n, ~ reportsFailed oneHiccup "3f2a9c1e-77" n) /\
  errorMessage
    (handleGenerate env oneHiccup flagging Mode3D "robot" "anime_action" []
       false initialPage) = Some "Failed to get job status: 503".
Proof.
  split; [vm_compute; reflexivity|].
  split; [vm_compute; reflexivity|].
  split; [|vm_compute; reflexivity].
  intros n (code & st & Hreply & _ & Hst).
  destruct n; cbn [oneHiccup jobStatus] in Hreply; [discriminate|].
  injection Hreply as _ <-. discriminate.
Qed.

Lemma C4_witness :
  (exists log,
     generate3D env oneHiccup "robot" true [] =
       (Threw "Failed to get job status: 503", log) /\
     polls log = 1%nat) /\
  (forall (R : Type) (server : SpriteRequest -> Fetched (SpriteJson R))
          preset animations fibo pg,
     isBlank "robot" = false ->
     generationStatus
       (handleGenerate env oneHiccup server Mode3D "robot" preset
          animations fibo pg) = failed /\
     errorMessage
       (handleGenerate env oneHiccup server Mode3D "robot" preset
          animations fibo pg) <> None).
Proof.
  apply (proj1 (C4_poll_failure_surfaces env oneHiccup "robot" true
                  "3f2a9c1e-77"
                  (ex_intro _ 200
                     (ex_intro _
                        {| start_job_id := "3f2a9c1e-77";
                           start_message := "started" |}
                        (conj eq_refl (conj eq_refl eq_refl)))))
           0%nat "Failed to get job status: 503").
  - vm_compute. lia.
  - intros i Hi. lia.
  - reflexivity.
Defined.

(** C5, refuted as stated: a frame count of zero, and the image is
    requested all the same. *)
Lemma C5_counterexample :
  frameCount zeroCountProps <= 0 /\
  loadEffect zeroCountProps = FetchImage "/output/walk_sheet.png" "anonymous".
Proof.
  split; [vm_compute; discriminate|reflexivity].
Qed.

Lemma C5_witness :
  loadEffect zeroCountProps = FetchImage "/output/walk_sheet.png" "anonymous".
Proof.
  apply (proj1 (C5_nonpositive_count_still_fetches zeroCountProps
                  ltac:(vm_compute; discriminate))).
  discriminate.
Defined.

Lemma C6_witness :
  exists c,
    target ClickNext pausedAt2 = Num c /\
    currentFrame (state (nextFrame standalone pausedAt2)) =
      Num (c mod frameCount (props pausedAt2)) /\
    frameCount (props (nextFrame standalone pausedAt2)) =
      frameCount (props pausedAt2) /\
    isPlaying (nextFrame standalone pausedAt2) = false.
Proof.
  assert (Hw : wired standalone (props pausedAt2)) by (split; exact I).
  assert (Hr : inRange pausedAt2).
  { split.
    - exists 2. split; [reflexivity|]. vm_compute. split; [discriminate|reflexivity].
    - vm_compute. discriminate. }
  apply (proj1 (C6_navigation_pauses standalone pausedAt2 Hw Hr) ClickNext);
    reflexivity.
Defined.

Lemma C7_witness :
  currentFrame (state (tick 1100 playingAt2)) = Num 3 /\
  lastFrameTime (state (tick 1100 playingAt2)) = 1100.
Proof.
  destruct (C7_timed_advance standalone 1100 playingAt2) as (_ & _ & H & _).
  destruct H as (Hc & _ & Hl & _).
  - reflexivity.
  - reflexivity.
  - discriminate.
  - vm_compute. discriminate.
  - split; [exact Hc|exact Hl].
Defined.

Lemma C8_witness :
  isPlaying (togglePlaying generatorPage (mountedByGenerator walkProps true))
  = false.
Proof.
  assert (Hw : wired generatorPage (props (mountedByGenerator walkProps true)))
    by (split; cbn; intros; reflexivity).
  apply (proj1 (C8_toggle_keeps_frame generatorPage
                  (mountedByGenerator walkProps true) Hw)).
Defined.

(** The scenario of a 384x64 sheet with six frames: six frames of 64x64;
    after scrubbing to index 5 and pressing play, the next due display
    frame wraps the index to 0. *)
Example scenario_384x64 :
  extractFrames walkProps sheet384 =
    map (fun i => {| sx := Num (64 * i); sy := Num 0;
                     sw := Num 64; sh := Num 64 |}) [0; 1; 2; 3; 4; 5] /\
  currentFrame (state (scrubTo 5 pausedAt2)) = Num 5 /\
  currentFrame
    (state (tick 1100 (togglePlaying standalone (scrubTo 5 pausedAt2))))
  = Num 0.
Proof. repeat split. Qed.

Lemma C10_witness :
  getOutputUrl env (getOutputUrl env "/output/walk_sheet.png") =
  getOutputUrl env "/output/walk_sheet.png".
Proof.
  apply (proj1 (C10_getOutputUrl_idempotent env "/output/walk_sheet.png"
                  eq_refl)).
Defined.

End AtSamples.

(** ** More on frame extraction *)
Section ExplicitFrameSize.

(** X1. With an explicit, non-zero frame width [w] and height [h] the
    extraction yields [frameCount] crops of [w] by [h] pixels, crop [i]
    starting at column [i * w]; the size of the loaded sheet plays no
    part, so the crops are not checked against the sheet. *)
Theorem X1_explicit_frame_size :
  forall (p : Props) (img : Image) (s : State) (w h : Z),
    frameWidth p = Some w -> w <> 0 ->
    frameHeight p = Some h -> h <> 0 ->
    List.length (frames (onload p true img s)) = Z.to_nat (frameCount p) /\
    (forall i, 0 <= i < frameCount p ->
       nth_error (frames (onload p true img s)) (Z.to_nat i) =
       Some {| sx := Num (i * w); sy := Num 0; sw := Num w; sh := Num h |}) /\
    (forall img' s',
       frames (onload p true img' s') = frames (onload p true img s)).
Proof.
  intros p img s w h Hw Hw0 Hh Hh0.
  assert (Hcw : forall im, calculatedFrameWidth p im = Num w).
  { intros im. unfold calculatedFrameWidth. rewrite Hw. cbn [JsNum.orElse truthy].
    destruct (Z.eqb_spec w 0); [contradiction|reflexivity]. }
  assert (Hch : forall im, calculatedFrameHeight p im = Num h).
  { intros im. unfold calculatedFrameHeight. rewrite Hh. cbn [JsNum.orElse truthy].
    destruct (Z.eqb_spec h 0); [contradiction|reflexivity]. }
  rewrite onload_frames. split; [apply extractFrames_length|]. split.
  - intros i Hi. rewrite extractFrames_nth by exact Hi.
    rewrite Hcw, Hch. reflexivity.
  - intros img' s'. rewrite !onload_frames, !extractFrames_spec.
    now rewrite !Hcw, !Hch.
Qed.

(** X2. An explicit frame width or height of 0 counts as absent: the
    frames are those of the same props without that size, the width
    falling back to [floor(W / frameCount)] and the height to the sheet
    height. *)
Theorem X2_zero_size_is_absent :
  forall (p : Props) (img : Image),
    (frameWidth p = Some 0 ->
     extractFrames p img =
     extractFrames
       {| gifUrl := gifUrl p; sheetUrl := sheetUrl p;
          frameCount := frameCount p; frameWidth := None;
          frameHeight := frameHeight p; speed := speed p;
          externalIsPlaying := externalIsPlaying p |} img) /\
    (frameHeight p = Some 0 ->
     extractFrames p img =
     extractFrames
       {| gifUrl := gifUrl p; sheetUrl := sheetUrl p;
          frameCount := frameCount p; frameWidth := frameWidth p;
          frameHeight := None; speed := speed p;
          externalIsPlaying := externalIsPlaying p |} img).
Proof.
  intros p img. split; intros H; rewrite !extractFrames_spec;
    unfold calculatedFrameWidth, calculatedFrameHeight;
    cbn [frameWidth frameHeight frameCount]; rewrite H; reflexivity.
Qed.

End ExplicitFrameSize.

(** ** Runs of the animator *)
Section Runs.

Variable par : Parent.

Lemma step_keeps (i : Input) (y : Sys) :
  wired par (props y) -> inRange y ->
  inRange (step par i y) /\ wired par (props (step par i y)) /\
  frameCount (props (step par i y)) = frameCount (props y).
Proof.
  intros Hw Hin. destruct i as [e|t|ctx img|]; cbn [step].
  - destruct (enabled e y) eqn:Hen; [|auto].
    destruct (handle_keeps par e y Hw Hin Hen) as [H1 H2].
    split; [exact H1|split; [exact H2|]].
    destruct e; cbn [handle];
      unfold showPreview, showSheet, togglePlaying, prevFrame, nextFrame,
        handleFrameClick, scrubTo, speedSlider; cbn [onState props];
      try reflexivity;
      try (apply (props_setIsPlaying par _ _ Hw));
      try (apply (props_setIsPlaying par _ (onState _ y) Hw)).
    destruct Hw as [_ Hs].
    destruct (onSpeedChange par); [cbn [props]; now rewrite Hs|reflexivity].
  - split; [apply tick_keeps; exact Hin|].
    unfold tick, animate.
    destruct (loopActive y); [|auto].
    destruct (speed (props y) <=? t - lastFrameTime (state y)); auto.
  - split; [apply onload_keeps; exact Hin|auto].
  - split; [|auto]. destruct Hin as [Hc Hf]. split; assumption.
Qed.

(** X3. From a fresh mount with a positive frame count and the playing
    flag wired as the repository wires it, the frame index is a number in
    [[0, frameCount)] after every sequence of control operations, display
    frames and image events, and the timeline never holds more than
    [frameCount] frames. *)
Theorem X3_reachable_in_range :
  forall (p : Props) (inputs : list Input),
    wired par p ->
    0 < frameCount p ->
    inRange (run par inputs {| props := p; state := initialState |}) /\
    frameCount (props (run par inputs {| props := p; state := initialState |}))
    = frameCount p.
Proof.
  intros p inputs Hw HF.
  assert (H : forall y, wired par (props y) -> inRange y ->
            inRange (run par inputs y) /\
            frameCount (props (run par inputs y)) = frameCount (props y)).
  { induction inputs as [|i inputs IH]; intros y Hwy Hin; [split; auto|].
    cbn [run fold_left].
    destruct (step_keeps i y Hwy Hin) as (H1 & H2 & H3).
    destruct (IH _ H2 H1) as [H4 H5].
    split; [exact H4|]. unfold run in H5. rewrite H5. exact H3. }
  apply (H {| props := p; state := initialState |}); [exact Hw|].
  apply inRange_initial. exact HF.
Qed.

Lemma step_keeps_error (i : Input) (y : Sys) :
  imgError (state y) = true -> imgError (state (step par i y)) = true.
Proof.
  intros H. destruct i as [e|t|ctx img|]; cbn [step].
  - destruct (enabled e y); [|exact H].
    destruct e; cbn [handle];
      unfold showPreview, showSheet, togglePlaying, prevFrame, nextFrame,
        handleFrameClick, scrubTo, speedSlider, setIsPlaying;
      destruct (onPlayingChange par), (onSpeedChange par); exact H.
  - unfold tick, animate. destruct (loopActive y); [|exact H].
    destruct (speed (props y) <=? t - lastFrameTime (state y)); exact H.
  - cbn [onState state]. unfold onload. destruct ctx; exact H.
  - reflexivity.
Qed.

(** X4. An image error is never cleared: once the sheet has failed to
    load, the error flag stays set under every later control operation,
    display frame and image event, a later successful load included, and
    the viewer shows no frame. *)
Theorem X4_image_error_is_sticky :
  forall (inputs : list Input) (y : Sys),
    imgError (state (run par (LoadFailed :: inputs) y)) = true /\
    previewFrame (run par (LoadFailed :: inputs) y) = None.
Proof.
  intros inputs y.
  assert (H : forall z, imgError (state z) = true ->
            imgError (state (run par inputs z)) = true).
  { induction inputs as [|i inputs IH]; intros z Hz; [exact Hz|].
    cbn [run fold_left]. apply IH. apply step_keeps_error. exact Hz. }
  assert (He : imgError (state (run par (LoadFailed :: inputs) y)) = true).
  { cbn [run fold_left]. apply H. reflexivity. }
  split; [exact He|]. unfold previewFrame. now rewrite He.
Qed.

End Runs.

(** ** Stepping through the frames *)
Section Stepping.

Variable par : Parent.

Lemma currentFrame_nextFrame (y : Sys) (c : Z) :
  currentFrame (state y) = Num c -> 0 <= c + 1 -> 0 < frameCount (props y) ->
  currentFrame (state (nextFrame par y)) = Num ((c + 1) mod frameCount (props y)).
Proof.
  intros Hc H0 HF. destruct (state_setIsPlaying par false y) as (Hcur & _).
  unfold nextFrame. cbn [onState state setCurrentFrame currentFrame].
  rewrite Hcur, Hc. cbn [add]. apply rem_in_range; lia.
Qed.

Lemma currentFrame_prevFrame (y : Sys) (c : Z) :
  currentFrame (state y) = Num c -> 0 <= c - 1 + frameCount (props y) ->
  0 < frameCount (props y) ->
  currentFrame (state (prevFrame par y)) = Num ((c - 1) mod frameCount (props y)).
Proof.
  intros Hc H0 HF. destruct (state_setIsPlaying par false y) as (Hcur & _).
  unfold prevFrame. cbn [onState state setCurrentFrame currentFrame].
  rewrite Hcur, Hc. cbn [sub neg add].
  rewrite rem_in_range by lia. f_equal.
  rewrite <- (Z.mod_add (c - 1) 1 (frameCount (props y))) by lia.
  f_equal. lia.
Qed.

Lemma frameCount_nextFrame (y : Sys) :
  wired par (props y) ->
  frameCount (props (nextFrame par y)) = frameCount (props y) /\
  wired par (props (nextFrame par y)).
Proof.
  intros Hw. destruct (props_setIsPlaying par false y Hw) as (H1 & _ & H2).
  unfold nextFrame. cbn [onState props]. auto.
Qed.

Lemma frameCount_prevFrame (y : Sys) :
  wired par (props y) ->
  frameCount (props (prevFrame par y)) = frameCount (props y) /\
  wired par (props (prevFrame par y)).
Proof.
  intros Hw. destruct (props_setIsPlaying par false y Hw) as (H1 & _ & H2).
  unfold prevFrame. cbn [onState props]. auto.
Qed.

(** X5. Under a repository wiring and a frame index in range, the step
    buttons undo each other: next then previous, and previous then next,
    come back to the frame index they started from, also across the wrap
    at the first and the last frame. *)
Theorem X5_next_prev_round_trip :
  forall (y : Sys),
    wired par (props y) ->
    inRange y ->
    currentFrame (state (prevFrame par (nextFrame par y))) =
      currentFrame (state y) /\
    currentFrame (state (nextFrame par (prevFrame par y))) =
      currentFrame (state y).
Proof.
  intros y Hw [(c & Hc & Hr) _].
  destruct (frameCount_nextFrame y Hw) as [HFn _].
  destruct (frameCount_prevFrame y Hw) as [HFp _].
  pose proof (Z.mod_pos_bound (c + 1) (frameCount (props y))) as Hb1.
  pose proof (Z.mod_pos_bound (c - 1) (frameCount (props y))) as Hb2.
  split.
  - rewrite (currentFrame_prevFrame _ ((c + 1) mod frameCount (props y)));
      rewrite ?HFn; try lia.
    + rewrite Hc. f_equal. rewrite Zminus_mod_idemp_l.
      replace (c + 1 - 1) with c by lia. apply Z.mod_small. lia.
    + apply currentFrame_nextFrame; [exact Hc|lia|lia].
  - rewrite (currentFrame_nextFrame _ ((c - 1) mod frameCount (props y)));
      rewrite ?HFp; try lia.
    + rewrite Hc. f_equal. rewrite Zplus_mod_idemp_l.
      replace (c - 1 + 1) with c by lia. apply Z.mod_small. lia.
    + apply currentFrame_prevFrame; [exact Hc|lia|lia].
Qed.

Lemma nextFrames_index (n : nat) :
  forall (y : Sys) (c : Z),
    wired par (props y) ->
    currentFrame (state y) = Num c -> 0 <= c < frameCount (props y) ->
    currentFrame (state (nextFrames par n y)) =
      Num ((c + Z.of_nat n) mod frameCount (props y)) /\
    isPlaying (nextFrames par (S n) y) = false.
Proof.
  induction n as [|n IH]; intros y c Hw Hc Hr.
  - cbn [nextFrames]. rewrite Hc, Z.add_0_r, Z.mod_small by lia.
    split; [reflexivity|].
    unfold nextFrame. rewrite isPlaying_onState by reflexivity.
    apply isPlaying_setIsPlaying. exact Hw.
  - destruct (frameCount_nextFrame y Hw) as [HF Hw'].
    pose proof (Z.mod_pos_bound (c + 1) (frameCount (props y))) as Hb.
    destruct (IH (nextFrame par y) ((c + 1) mod frameCount (props y)) Hw')
      as [H1 H2].
    + apply currentFrame_nextFrame; [exact Hc|lia|lia].
    + rewrite HF. lia.
    + change (nextFrames par (S n) y) with (nextFrames par n (nextFrame par y)).
      split; [|exact H2].
      rewrite H1, HF. f_equal. rewrite Zplus_mod_idemp_l. f_equal. lia.
Qed.

(** X6. Under a repository wiring and a frame index [c] in range, [n]
    presses of the next button lead to frame [(c + n) mod frameCount]
    and leave the animation paused; [frameCount] presses lead back to
    frame [c]. *)
Theorem X6_next_frames_cycle :
  forall (y : Sys) (c : Z) (n : nat),
    wired par (props y) ->
    currentFrame (state y) = Num c ->
    0 <= c < frameCount (props y) ->
    currentFrame (state (nextFrames par n y)) =
      Num ((c + Z.of_nat n) mod frameCount (props y)) /\
    isPlaying (nextFrames par (S n) y) = false /\
    currentFrame (state (nextFrames par (Z.to_nat (frameCount (props y))) y)) =
      Num c.
Proof.
  intros y c n Hw Hc Hr.
  destruct (nextFrames_index n y c Hw Hc Hr) as [H1 H2].
  split; [exact H1|split; [exact H2|]].
  destruct (nextFrames_index (Z.to_nat (frameCount (props y))) y c Hw Hc Hr)
    as [H3 _].
  rewrite H3. f_equal. rewrite Z2Nat.id by lia.
  rewrite <- (Z.mul_1_l (frameCount (props y))) at 1.
  rewrite Z.mod_add by lia. apply Z.mod_small. exact Hr.
Qed.

(** X7. Where the parent stores the speed (the Generator page), moving the
    speed slider to [v] sets the frame interval to [330 - v] ms and the
    slider then shows [v]; a slider position within [[30, 300]] gives an
    interval within [[30, 300]]; the frame index, the playing flag and
    the time of the last advance are not touched.  Without an
    [onSpeedChange] callback the slider changes nothing. *)
Theorem X7_speed_slider :
  forall (y : Sys) (v : Z),
    wired par (props y) ->
    (onSpeedChange par <> None ->
       speed (props (speedSlider par v y)) = 330 - v /\
       sliderValue (props (speedSlider par v y)) = v /\
       (30 <= v <= 300 -> 30 <= speed (props (speedSlider par v y)) <= 300) /\
       currentFrame (state (speedSlider par v y)) = currentFrame (state y) /\
       lastFrameTime (state (speedSlider par v y)) = lastFrameTime (state y) /\
       isPlaying (speedSlider par v y) = isPlaying y /\
       frameCount (props (speedSlider par v y)) = frameCount (props y)) /\
    (onSpeedChange par = None -> speedSlider par v y = y).
Proof.
  intros y v [_ Hs]. unfold speedSlider, sliderValue.
  destruct (onSpeedChange par) as [cb|]; split; try congruence; intros _.
  rewrite Hs. cbn [props state withSpeed speed frameCount].
  unfold isPlaying. cbn [props state withSpeed externalIsPlaying].
  repeat split; lia.
Qed.

(** X8. After an advance at timestamp [t], display frames that arrive
    less than [speed] later change nothing: two advances are at least
    [speed] apart. *)
Theorem X8_one_advance_per_interval :
  forall (y : Sys) (t t' : Z),
    loopActive y = true ->
    speed (props y) <= t - lastFrameTime (state y) ->
    t' - t < speed (props y) ->
    tick t' (tick t y) = tick t y.
Proof.
  intros y t t' Hon Hdue Hsoon. apply tick_idle. right.
  rewrite (tick_advance t y Hon Hdue).
  cbn [onState props state setLastFrameTime lastFrameTime]. exact Hsoon.
Qed.

(** X9. Display frames change nothing in sheet view and before frames
    have been extracted.  The SHEET tab pauses the animation; going back
    with the ANIMATION tab does not resume it, so the frame index stays
    where it was until the user presses play. *)
Theorem X9_sheet_view_stops_playback :
  forall (y : Sys),
    wired par (props y) ->
    (forall z t, viewMode (state z) = sheet \/ frames (state z) = [] ->
       tick t z = z) /\
    viewMode (state (showSheet par y)) = sheet /\
    isPlaying (showSheet par y) = false /\
    isPlaying (showPreview (showSheet par y)) = false /\
    viewMode (state (showPreview (showSheet par y))) = preview /\
    (forall t, tick t (showPreview (showSheet par y)) =
               showPreview (showSheet par y)) /\
    currentFrame (state (showPreview (showSheet par y))) =
      currentFrame (state y).
Proof.
  intros y Hw.
  assert (Hp : isPlaying (showSheet par y) = false).
  { unfold showSheet. apply isPlaying_setIsPlaying. exact Hw. }
  assert (Hpp : isPlaying (showPreview (showSheet par y)) = false).
  { unfold showPreview. rewrite isPlaying_onState; [exact Hp|reflexivity]. }
  destruct (state_setIsPlaying par false (onState (setViewMode sheet) y))
    as (Hcur & _ & _ & Hview).
  split; [|repeat split].
  - intros z t [Hv|Hf]; apply tick_idle; left; unfold loopActive, inPreview.
    + rewrite Hv. cbn [ViewMode_eqb]. now rewrite andb_false_r.
    + rewrite Hf. cbn. now rewrite andb_false_r.
  - unfold showSheet. rewrite Hview. reflexivity.
  - exact Hp.
  - exact Hpp.
  - intros t. apply tick_idle. left. unfold loopActive. now rewrite Hpp.
  - unfold showPreview, showSheet.
    cbn [onState state setViewMode currentFrame]. rewrite Hcur. reflexivity.
Qed.

End Stepping.

(** ** What the viewer shows *)
Section Viewer.

Variable par : Parent.

Lemma handleFrameClick_state (index : Z) (y : Sys) :
  viewMode (state (handleFrameClick par index y)) = preview /\
  currentFrame (state (handleFrameClick par index y)) = Num index /\
  frames (state (handleFrameClick par index y)) = frames (state y) /\
  imgError (state (handleFrameClick par index y)) = imgError (state y).
Proof.
  unfold handleFrameClick, setIsPlaying.
  destruct (onPlayingChange par); repeat split.
Qed.


(** X11. With a frame count of 0 the step buttons and the animation loop
    turn the frame index into [NaN], whatever it was, and from [NaN] the
    step buttons never get back to a number, whatever the frame count.
    The Generator page never passes a frame count of 0: a count of 0 or
    a missing animation gives 6. *)
Theorem X11_zero_count_gives_NaN :
  forall (y : Sys),
    (frameCount (props y) = 0 ->
       currentFrame (state (nextFrame par y)) = NaN /\
       currentFrame (state (prevFrame par y)) = NaN /\
       (forall t, loopActive y = true ->
          speed (props y) <= t - lastFrameTime (state y) ->
          currentFrame (state (tick t y)) = NaN)) /\
    (currentFrame (state y) = NaN ->
       currentFrame (state (nextFrame par y)) = NaN /\
       currentFrame (state (prevFrame par y)) = NaN) /\
    (forall gif sheetPath frame_count frame_size animationSpeed playing,
       frameCount
         (generatorProps gif sheetPath frame_count frame_size animationSpeed
            playing) <> 0 /\
       (frame_count = None \/ frame_count = Some 0 ->
        frameCount
          (generatorProps gif sheetPath frame_count frame_size animationSpeed
             playing) = 6)).
Proof.
  intros y. destruct (state_setIsPlaying par false y) as (Hcur & _).
  split; [|split].
  - intros H0. split; [|split].
    + unfold nextFrame. cbn [onState state setCurrentFrame currentFrame].
      rewrite Hcur, H0. destruct (currentFrame (state y)); reflexivity.
    + unfold prevFrame. cbn [onState state setCurrentFrame currentFrame].
      rewrite Hcur, H0. destruct (currentFrame (state y)); reflexivity.
    + intros t Hon Hdue. rewrite tick_advance by assumption.
      cbn [onState state setLastFrameTime setCurrentFrame currentFrame].
      rewrite H0. destruct (currentFrame (state y)); reflexivity.
  - intros Hn. split.
    + unfold nextFrame. cbn [onState state setCurrentFrame currentFrame].
      rewrite Hcur, Hn. reflexivity.
    + unfold prevFrame. cbn [onState state setCurrentFrame currentFrame].
      rewrite Hcur, Hn. reflexivity.
  - intros gif sheetPath frame_count frame_size animationSpeed playing.
    cbn [generatorProps frameCount]. split.
    + destruct frame_count as [n|]; [|discriminate].
      destruct (Z.eqb_spec n 0); [discriminate|assumption].
    + intros [->| ->]; reflexivity.
Qed.

End Viewer.

(** ** More on the sprite endpoints *)
Section SpriteEndpoints.

(** X12. [generateSprite] returns exactly when the response has a 2xx
    status and a body that parses.  On a non-2xx response whose body is
    not JSON it throws [Unknown error]; on one whose body is a JSON
    object it throws the object's [error] text when that is a non-empty
    string, and [API error: <status>] when the [error] member is absent
    or the empty string. *)
Theorem X12_generateSprite_outcome :
  forall (R : Type) (server : SpriteRequest -> Fetched (SpriteJson R))
         (prompt preset : string) (animations : option (list string))
         (fibo : option bool),
    (forall j,
       generateSprite server prompt preset animations fibo = Returned j <->
       exists code,
         server (spriteRequest prompt preset animations fibo) =
           Responded code (inr j) /\ ok code = true) /\
    (forall code body,
       server (spriteRequest prompt preset animations fibo) =
         Responded code body ->
       ok code = false ->
       (forall syntaxError, body = inl syntaxError ->
          generateSprite server prompt preset animations fibo =
          Threw "Unknown error") /\
       (forall j e, body = inr j -> error_member j = Some e -> e <> "" ->
          generateSprite server prompt preset animations fibo = Threw e) /\
       (forall j, body = inr j ->
          error_member j = None \/ error_member j = Some "" ->
          generateSprite server prompt preset animations fibo =
          Threw ("API error: " ++ ofNumber code)%string)).
Proof.
  intros R server prompt preset animations fibo. unfold generateSprite. split.
  - intros j.
    destruct (server (spriteRequest prompt preset animations fibo))
      as [m|code [m|j']]; (split; [intros H|intros (c & H & Hok)]);
      try discriminate; try destruct (ok code) eqn:Hc; try discriminate.
    + injection H as ->. exists code. auto.
    + injection H as <- <-. reflexivity.
    + injection H as <- <-. congruence.
  - intros code body -> ->. split; [|split].
    + intros m ->. reflexivity.
    + intros j e -> -> He. unfold JsString.orElse.
      destruct (String.eqb_spec e ""); [contradiction|reflexivity].
    + intros j -> [-> | ->]; reflexivity.
Qed.

(** X13. A sprite request never carries an empty animation list: an
    empty selection is sent as no [animations] member at all, which the
    backend reads as all animations; [use_fibo_enhanced] is always a
    boolean, [false] when not given. *)
Theorem X13_request_has_no_empty_animations :
  forall (prompt preset : string) (animations : option (list string))
         (fibo : option bool),
    req_animations (spriteRequest prompt preset animations fibo) <> Some [] /\
    (animations = None \/ animations = Some [] ->
     req_animations (spriteRequest prompt preset animations fibo) = None) /\
    (forall a l, animations = Some (a :: l) ->
     req_animations (spriteRequest prompt preset animations fibo) =
       Some (a :: l)) /\
    (fibo = None ->
     use_fibo_enhanced (spriteRequest prompt preset animations fibo) = false).
Proof.
  intros prompt preset animations fibo. cbn [spriteRequest req_animations
    use_fibo_enhanced]. repeat split.
  - destruct animations as [[|a l]|]; discriminate.
  - intros [-> | ->]; reflexivity.
  - intros a l ->. reflexivity.
  - intros ->. reflexivity.
Qed.


End SpriteEndpoints.

(** ** More on the polling loop *)
Section PollingMore.

Variable env : Env.
Variable backend : Backend.

(** Passes whose answers do not end the polling are left behind. *)
Lemma pollLoop_skip (onProgress : bool) (jobId : string) :
  forall (n a : nat) (log : list Event),
    (forall i, (i < n)%nat -> keepsGoing backend jobId (polls log + i)) ->
    exists log',
      pollLoop env backend onProgress jobId (n + a) log =
        pollLoop env backend onProgress jobId a log' /\
      polls log' = (polls log + n)%nat.
Proof.
  induction n as [|n IH]; intros a log Hgo.
  - exists log. split; [reflexivity|lia].
  - cbn [Nat.add]. rewrite pollLoop_step.
    destruct (keepsGoing_outcome backend jobId (polls log)) as (st & Ho & Hc & Hf).
    { rewrite <- (Nat.add_0_r (polls log)). apply Hgo. lia. }
    rewrite Ho, Hc, Hf.
    destruct (IH a (log ++ onePass onProgress jobId (status st))%list)
      as (log' & Hrun & Hpolls).
    { intros i Hi. rewrite polls_app, polls_onePass.
      replace (polls log + 1 + i)%nat with (polls log + S i)%nat by lia.
      apply Hgo. lia. }
    exists log'. split; [exact Hrun|].
    rewrite Hpolls, polls_app, polls_onePass. lia.
Qed.

(** The waits and status requests of the loop alternate, whatever the
    backend answers. *)
Lemma pollLoop_schedule (onProgress : bool) (jobId : string) :
  forall (a : nat) (log : list Event),
    exists k,
      polls (snd (pollLoop env backend onProgress jobId a log)) =
        (polls log + k)%nat /\
      schedule (snd (pollLoop env backend onProgress jobId a log)) =
        (schedule log ++ fixedSchedule jobId k)%list.
Proof.
  induction a as [|a IH]; intros log.
  - exists 0%nat. cbn [pollLoop]. unfold throw, fixedSchedule.
    cbn [snd repeat List.concat]. rewrite app_nil_r. split; [lia|reflexivity].
  - rewrite pollLoop_step.
    assert (Hone : forall l,
              schedule l = [EvWait 5000; EvStatus jobId] -> polls l = 1%nat ->
              polls (log ++ l) = (polls log + 1)%nat /\
              schedule (log ++ l) = (schedule log ++ fixedSchedule jobId 1)%list).
    { intros l Hs Hp. rewrite polls_app, schedule_app, Hs, Hp. auto. }
    destruct (pollOutcome backend jobId (polls log)) as [st|m].
    + pose proof (Hone _ (schedule_onePass onProgress jobId (status st))
                    (polls_onePass onProgress jobId (status st))) as [Hp Hs].
      destruct (status st =? "completed")%string; [exists 1%nat; auto|].
      destruct (status st =? "failed")%string; [exists 1%nat; auto|].
      destruct (IH (log ++ onePass onProgress jobId (status st))%list)
        as (k & Hk1 & Hk2).
      exists (S k). rewrite Hk1, Hk2, Hp, Hs. split; [lia|].
      rewrite <- app_assoc. reflexivity.
    + exists 1%nat. cbn [snd]. apply Hone; reflexivity.
Qed.

(** X15. When the pipeline start fails, [generate3D] throws the error
    of the start ([Failed to start 3D pipeline: <status>] for a non-2xx
    answer) without a single wait or status request. *)
Theorem X15_failed_start_makes_no_poll :
  forall (prompt : string) (onProgress : bool) (m : string),
    startOutcome backend prompt = Threw m ->
    exists log,
      generate3D env backend prompt onProgress [] = (Threw m, log) /\
      polls log = 0%nat /\
      schedule log = [] /\
      (forall code body,
         startPipeline backend prompt = Responded code body ->
         ok code = false ->
         m = ("Failed to start 3D pipeline: " ++ ofNumber code)%string).
Proof.
  intros prompt onProgress m H. unfold generate3D. unfold bind at 1.
  unfold progress at 1.
  destruct onProgress; [unfold emit at 1|unfold ret at 1]; unfold bind at 1;
    rewrite start3DPipeline_run, H; eexists;
    (split; [reflexivity|split; [reflexivity|split; [reflexivity|]]]);
    intros code body Hr Hok; unfold startOutcome in H;
    rewrite Hr, Hok in H; congruence.
Qed.

(** X16. In every run that started, whatever the backend answers and
    however the run ends, the waits and status requests alternate: each
    status request comes right after a wait of 5000 ms, and no wait is
    made without a status request after it. *)
Theorem X16_every_poll_follows_a_wait :
  forall (prompt : string) (onProgress : bool) (jobId : string),
    started backend prompt jobId ->
    schedule (snd (generate3D env backend prompt onProgress [])) =
    fixedSchedule jobId
      (polls (snd (generate3D env backend prompt onProgress []))).
Proof.
  intros prompt onProgress jobId Hs.
  rewrite (generate3D_started env backend onProgress prompt jobId Hs).
  destruct (pollLoop_schedule onProgress jobId maxAttempts
              (prelude onProgress prompt jobId)) as (k & Hp & Hsch).
  rewrite Hp, Hsch, polls_prelude, schedule_prelude. reflexivity.
Qed.

(** X17. When the first [n] status requests ([n < 120]) are answered
    with a status that does not end the polling and the next with
    [completed], [generate3D] returns the URLs of that answer after
    [n + 1] status requests; and [generate3D] returns only in this way. *)
Theorem X17_completes_at_nth_poll :
  forall (prompt : string) (onProgress : bool) (jobId : string),
    started backend prompt jobId ->
    (forall n st,
       (n < maxAttempts)%nat ->
       (forall i, (i < n)%nat -> keepsGoing backend jobId i) ->
       reportsCompleted backend jobId n st ->
       exists log,
         generate3D env backend prompt onProgress [] =
           (Returned (completedResult env st), log) /\
         polls log = S n) /\
    (forall r log,
       generate3D env backend prompt onProgress [] = (Returned r, log) ->
       exists n st,
         (n < maxAttempts)%nat /\
         (forall i, (i < n)%nat -> keepsGoing backend jobId i) /\
         reportsCompleted backend jobId n st /\
         r = completedResult env st /\ polls log = S n).
Proof.
  intros prompt onProgress jobId Hs.
  rewrite (generate3D_started env backend onProgress prompt jobId Hs). split.
  - intros n st Hn Hgo [Ho Hc].
    replace maxAttempts with (n + S (maxAttempts - S n))%nat by lia.
    destruct (pollLoop_skip onProgress jobId n (S (maxAttempts - S n))
                (prelude onProgress prompt jobId)) as (log' & Hrun & Hp).
    { intros i Hi. rewrite polls_prelude. apply Hgo. exact Hi. }
    rewrite Hrun, pollLoop_step, Hp, polls_prelude. cbn [Nat.add].
    rewrite Ho, Hc. cbn [String.eqb Ascii.eqb Bool.eqb].
    eexists. split; [reflexivity|].
    rewrite polls_app, polls_onePass, Hp, polls_prelude. lia.
  - assert (H : forall a log r log',
              pollLoop env backend onProgress jobId a log = (Returned r, log') ->
              exists n st,
                (n < a)%nat /\
                (forall i, (i < n)%nat -> keepsGoing backend jobId (polls log + i)) /\
                reportsCompleted backend jobId (polls log + n) st /\
                r = completedResult env st /\
                polls log' = (polls log + S n)%nat).
    { induction a as [|a IH]; intros log r log' Hrun.
      - cbn [pollLoop] in Hrun. unfold throw in Hrun. discriminate.
      - rewrite pollLoop_step in Hrun.
        destruct (pollOutcome backend jobId (polls log)) as [st|m] eqn:Ho;
          [|discriminate].
        destruct (String.eqb_spec (status st) "completed") as [Hc|Hc].
        + injection Hrun as <- <-. exists 0%nat, st.
          rewrite Nat.add_0_r, polls_app, polls_onePass.
          repeat split; auto; lia.
        + destruct (String.eqb_spec (status st) "failed") as [Hf|Hf];
            [discriminate|].
          apply IH in Hrun. rewrite polls_app, polls_onePass in Hrun.
          destruct Hrun as (n & st' & Hn & Hgo & Hdone & Hr & Hp).
          exists (S n), st'.
          replace (polls log + S n)%nat with (polls log + 1 + n)%nat by lia.
          repeat split; try apply Hdone; auto; try lia.
          intros [|i] Hi.
          * rewrite Nat.add_0_r. apply (outcome_keepsGoing _ _ _ st Ho);
              now apply String.eqb_neq.
          * replace (polls log + S i)%nat with (polls log + 1 + i)%nat by lia.
            apply Hgo. lia. }
    intros r log Hrun. apply H in Hrun. rewrite polls_prelude in Hrun.
    exact Hrun.
Qed.

(** X18. When the first [n] status requests ([n < 120]) are answered
    with a status that does not end the polling and the next with
    [failed], [generate3D] throws after [n + 1] status requests: the
    [error] text of that answer when it has a non-empty one, and
    [Pipeline failed] when it has none or an empty one. *)
Theorem X18_failed_status_message :
  forall (prompt : string) (onProgress : bool) (jobId : string)
         (n : nat) (st : JobStatus),
    started backend prompt jobId ->
    (n < maxAttempts)%nat ->
    (forall i, (i < n)%nat -> keepsGoing backend jobId i) ->
    pollOutcome backend jobId n = Returned st ->
    status st = "failed" ->
    exists log,
      generate3D env backend prompt onProgress [] =
        (Threw (JsString.orElse (error st) "Pipeline failed"), log) /\
      polls log = S n /\
      (forall e, error st = Some e -> e <> "" ->
         JsString.orElse (error st) "Pipeline failed" = e) /\
      (error st = None \/ error st = Some "" ->
         JsString.orElse (error st) "Pipeline failed" = "Pipeline failed").
Proof.
  intros prompt onProgress jobId n st Hs Hn Hgo Ho Hf.
  rewrite (generate3D_started env backend onProgress prompt jobId Hs).
  replace maxAttempts with (n + S (maxAttempts - S n))%nat by lia.
  destruct (pollLoop_skip onProgress jobId n (S (maxAttempts - S n))
              (prelude onProgress prompt jobId)) as (log' & Hrun & Hp).
  { intros i Hi. rewrite polls_prelude. apply Hgo. exact Hi. }
  rewrite Hrun, pollLoop_step, Hp, polls_prelude. cbn [Nat.add].
  rewrite Ho, Hf. cbn [String.eqb Ascii.eqb Bool.eqb].
  eexists. split; [reflexivity|].
  rewrite polls_app, polls_onePass, Hp, polls_prelude.
  split; [lia|]. split.
  - intros e -> He. unfold JsString.orElse.
    destruct (String.eqb_spec e ""); [contradiction|reflexivity].
  - intros [-> | ->]; reflexivity.
Qed.

End PollingMore.

(** ** The progress callback *)
Section Callback.

Variable env : Env.
Variable backend : Backend.

Lemma progressMessages_app (l1 l2 : list Event) :
  progressMessages (l1 ++ l2) = (progressMessages l1 ++ progressMessages l2)%list.
Proof. unfold progressMessages. apply flat_map_app. Qed.

Lemma startOutcome_started (prompt : string) (r : StartReply) :
  startOutcome backend prompt = Returned r ->
  started backend prompt (start_job_id r).
Proof.
  unfold startOutcome, started. intros H.
  destruct (startPipeline backend prompt) as [m|code [m|r']]; try discriminate;
    destruct (ok code) eqn:Hok; try discriminate.
  injection H as ->. exists code, r. auto.
Qed.

(** The log of a run whose start fails. *)
Lemma generate3D_failed_start_log (prompt m : string) (onProgress : bool) :
  startOutcome backend prompt = Threw m ->
  generate3D env backend prompt onProgress [] =
  (Threw m,
   ((if onProgress then [EvProgress "Starting 3D generation pipeline..."]
     else []) ++ [EvStart prompt])%list).
Proof.
  intros H. unfold generate3D. unfold bind at 1. unfold progress at 1.
  destruct onProgress; [unfold emit at 1|unfold ret at 1]; unfold bind at 1;
    rewrite start3DPipeline_run, H; reflexivity.
Qed.

End Callback.

(** ** The progress steps *)
Section Steps.

Import Store.

(** X20. [updateStep] keeps the number, the order, the ids, the labels
    and the descriptions of the steps and gives the steps with the given
    id the given status; the other steps are as they were, an id that
    no step has changes nothing, a second update of the same id
    overwrites the first, and updates of different ids can be made in
    any order. *)
Theorem X20_updateStep_touches_one_step :
  forall (stepId : string) (st : StepStatus) (steps : list GenerationStep),
    map id (updateStep stepId st steps) = map id steps /\
    map label (updateStep stepId st steps) = map label steps /\
    map description (updateStep stepId st steps) = map description steps /\
    (forall n s, nth_error steps n = Some s ->
       nth_error (updateStep stepId st steps) n =
       Some (if (id s =? stepId)%string then withStatus st s else s)) /\
    (~ In stepId (map id steps) -> updateStep stepId st steps = steps) /\
    (forall st', updateStep stepId st (updateStep stepId st' steps) =
                 updateStep stepId st steps) /\
    (forall other st', other <> stepId ->
       updateStep stepId st (updateStep other st' steps) =
       updateStep other st' (updateStep stepId st steps)).
Proof.
  intros stepId st steps. unfold updateStep.
  split; [|split; [|split; [|split; [|split; [|split]]]]].
  - rewrite map_map. apply map_ext. intros s.
    destruct (id s =? stepId)%string; reflexivity.
  - rewrite map_map. apply map_ext. intros s.
    destruct (id s =? stepId)%string; reflexivity.
  - rewrite map_map. apply map_ext. intros s.
    destruct (id s =? stepId)%string; reflexivity.
  - intros n s Hn. rewrite nth_error_map, Hn. reflexivity.
  - intros Hnot. rewrite <- (map_id steps) at 2. apply map_ext_in.
    intros s Hs. destruct (String.eqb_spec (id s) stepId) as [E|]; [|reflexivity].
    exfalso. apply Hnot. rewrite <- E. apply in_map. exact Hs.
  - intros st'. rewrite map_map. apply map_ext. intros s.
    destruct (String.eqb_spec (id s) stepId) as [E|E]; cbn [id withStatus].
    + destruct (String.eqb_spec (id s) stepId); [reflexivity|contradiction].
    + destruct (String.eqb_spec (id s) stepId); [contradiction|reflexivity].
  - intros other st' Hne. rewrite !map_map. apply map_ext. intros s.
    destruct (String.eqb_spec (id s) other) as [E1|E1];
      destruct (String.eqb_spec (id s) stepId) as [E2|E2];
      cbn [id withStatus];
      repeat match goal with
             | |- context [String.eqb ?a ?b] => destruct (String.eqb_spec a b)
             end; try reflexivity; congruence.
Qed.

End Steps.

Section GeneratorSteps.

Variable env : Env.
Variable backend : Backend.

Lemma onProgressSteps_running (m : string) (a b : Store.StepStatus) :
  a <> Store.pending -> b <> Store.pending ->
  exists a' b',
    onProgressSteps m (running3D a b) = running3D a' b' /\
    a' <> Store.pending /\ b' <> Store.pending.
Proof.
  intros Ha Hb. unfold onProgressSteps.
  destruct (includes m "FIBO" || includes m "image").
  - exists Store.active, b. repeat split; [discriminate|exact Hb].
  - destruct (includes m "TRIPO" || includes m "3D").
    + exists Store.completed, Store.active. repeat split; discriminate.
    + exists a, b. auto.
Qed.

Lemma fold_running (msgs : list string) :
  forall (a b : Store.StepStatus),
    a <> Store.pending -> b <> Store.pending ->
    exists a' b',
      fold_left (fun st m => onProgressSteps m st) msgs (running3D a b) =
        running3D a' b' /\
      a' <> Store.pending /\ b' <> Store.pending.
Proof.
  induction msgs as [|m msgs IH]; intros a b Ha Hb.
  - exists a, b. auto.
  - cbn [fold_left].
    destruct (onProgressSteps_running m a b Ha Hb) as (a1 & b1 & -> & Ha1 & Hb1).
    apply IH; assumption.
Qed.




End GeneratorSteps.

(** ** The Generator page *)
Section GeneratorPage.

Lemma selected_iff (anim : string) (l : list string) :
  existsb (fun a => (a =? anim)%string) l = true <-> In anim l.
Proof.
  rewrite existsb_exists. split.
  - intros (a & Ha & E). apply String.eqb_eq in E. now subst.
  - intros H. exists anim. split; [exact H|apply String.eqb_refl].
Qed.

Lemma filter_keeps_all (A : Type) (f : A -> bool) (l : list A) :
  (forall x, In x l -> f x = true) -> filter f l = l.
Proof.
  induction l as [|x l IH]; intros H; [reflexivity|].
  cbn [filter]. rewrite (H x (or_introl eq_refl)). f_equal.
  apply IH. intros y Hy. apply H. now right.
Qed.

(** X24. A click on an animation button flips whether that animation is
    selected and leaves the other animations as they were; a selection
    without duplicates stays without duplicates; selecting an animation
    and deselecting it again gives back the very selection. *)
Theorem X24_toggleAnimation_flips_membership :
  forall (anim : string) (prev : list string),
    (In anim (toggleAnimation anim prev) <-> ~ In anim prev) /\
    (forall other, other <> anim ->
       (In other (toggleAnimation anim prev) <-> In other prev)) /\
    (NoDup prev -> NoDup (toggleAnimation anim prev)) /\
    (~ In anim prev ->
       toggleAnimation anim (toggleAnimation anim prev) = prev).
Proof.
  intros anim prev.
  assert (Hoff : forall l, ~ In anim l ->
            toggleAnimation anim l = (l ++ [anim])%list).
  { intros l Hl. unfold toggleAnimation.
    destruct (existsb (fun a => (a =? anim)%string) l) eqn:E; [|reflexivity].
    apply selected_iff in E. contradiction. }
  assert (Hon : forall l, In anim l ->
            toggleAnimation anim l =
            filter (fun a => negb (a =? anim)%string) l).
  { intros l Hl. unfold toggleAnimation.
    apply selected_iff in Hl. now rewrite Hl. }
  destruct (in_dec string_dec anim prev) as [Hin|Hnot].
  - rewrite (Hon prev Hin). split; [|split; [|split]].
    + rewrite filter_In, String.eqb_refl. cbn [negb].
      split; [intros [_ H]; discriminate|contradiction].
    + intros other Hne. rewrite filter_In.
      destruct (String.eqb_spec other anim); [contradiction|].
      cbn [negb]. tauto.
    + intros Hnd. apply NoDup_filter. exact Hnd.
    + contradiction.
  - rewrite (Hoff prev Hnot). split; [|split; [|split]].
    + rewrite in_app_iff. cbn [In]. tauto.
    + intros other Hne. rewrite in_app_iff. cbn [In]. split; [|tauto].
      intros [H|[H|[]]]; [exact H|congruence].
    + intros Hnd. apply NoDup_app; [exact Hnd|repeat constructor; intros []|].
      intros x Hx [<-|[]]. contradiction.
    + intros _. rewrite Hon by (apply in_app_iff; right; now left).
      rewrite filter_app. cbn [filter]. rewrite String.eqb_refl. cbn [negb].
      rewrite app_nil_r. apply filter_keeps_all.
      intros x Hx. destruct (String.eqb_spec x anim); [congruence|reflexivity].
Qed.

(** X26. A 3D generation that runs out of its 120 status requests is
    shown under the category [general] with the text [Pipeline timed
    out]: the text does not contain [timeout], so it is not taken for a
    network error. *)
Theorem X26_timeout_shown_as_general :
  forall (R : Type) (env : Env) (backend : Backend)
         (server : SpriteRequest -> Fetched (SpriteJson R))
         (prompt preset : string) (selected : list string) (fibo : bool)
         (pg : Page) (jobId : string),
    isBlank prompt = false ->
    started backend prompt jobId ->
    (forall n, (n < maxAttempts)%nat -> keepsGoing backend jobId n) ->
    errorType
      (handleGenerate env backend server Mode3D prompt preset selected fibo pg)
    = general /\
    errorMessage
      (handleGenerate env backend server Mode3D prompt preset selected fibo pg)
    = Some "Pipeline timed out" /\
    generationStatus
      (handleGenerate env backend server Mode3D prompt preset selected fibo pg)
    = failed.
Proof.
  intros R env backend server prompt preset selected fibo pg jobId Hb Hs Hgo.
  unfold handleGenerate. rewrite Hb.
  rewrite (generate3D_started env backend true prompt jobId Hs).
  destruct (pollLoop_exhausts env backend true jobId maxAttempts
              (prelude true prompt jobId)) as (log & -> & _).
  { intros i Hi. rewrite polls_prelude. apply Hgo. exact Hi. }
  cbn [fst]. repeat split.
Qed.


End GeneratorPage.

(** ** The further theorems at sample inputs *)
Section MoreAtSamples.

Import Samples MoreSamples.

Lemma started_sample (b : Backend) :
  startPipeline b = startOk -> started b "robot" "3f2a9c1e-77".
Proof.
  intros H. exists 200,
    {| start_job_id := "3f2a9c1e-77"; start_message := "started" |}.
  rewrite H. repeat split.
Defined.

Lemma X1_witness :
  List.length (frames (onload walkFromGenerator true sheet384 initialState)) =
  Z.to_nat (frameCount walkFromGenerator).
Proof.
  apply (X1_explicit_frame_size walkFromGenerator sheet384 initialState 64 64);
    reflexivity || discriminate.
Defined.

Lemma X3_witness :
  inRange (run standalone session {| props := walkProps; state := initialState |}).
Proof.
  apply (X3_reachable_in_range standalone walkProps session).
  - split; exact I.
  - reflexivity.
Defined.

Lemma X5_witness :
  currentFrame (state (prevFrame standalone (nextFrame standalone pausedAt2))) =
  currentFrame (state pausedAt2).
Proof.
  apply (X5_next_prev_round_trip standalone pausedAt2).
  - split; exact I.
  - split.
    + exists 2. split; [reflexivity|]. vm_compute. split; [discriminate|reflexivity].
    + vm_compute. discriminate.
Defined.

Lemma X6_witness :
  currentFrame (state (nextFrames standalone 4 pausedAt2)) =
  Num ((2 + Z.of_nat 4) mod frameCount (props pausedAt2)).
Proof.
  apply (X6_next_frames_cycle standalone pausedAt2 2 4).
  - split; exact I.
  - reflexivity.
  - vm_compute. split; [discriminate|reflexivity].
Defined.

Lemma X7_witness :
  speed (props (speedSlider generatorPage 200
                  (mountedByGenerator walkProps true))) = 330 - 200.
Proof.
  assert (Hw : wired generatorPage (props (mountedByGenerator walkProps true)))
    by (split; cbn; intros; reflexivity).
  destruct (X7_speed_slider generatorPage (mountedByGenerator walkProps true)
              200 Hw) as [H _].
  apply H. discriminate.
Defined.

Lemma X8_witness : tick 1150 (tick 1100 playingAt2) = tick 1100 playingAt2.
Proof.
  apply (X8_one_advance_per_interval playingAt2 1100 1150).
  - reflexivity.
  - vm_compute. discriminate.
  - reflexivity.
Defined.

Lemma X9_witness : isPlaying (showSheet standalone playingAt2) = false.
Proof.
  assert (Hw : wired standalone (props playingAt2)) by (split; exact I).
  destruct (X9_sheet_view_stops_playback standalone playingAt2 Hw)
    as (_ & _ & H & _).
  exact H.
Defined.


Lemma X15_witness :
  exists log,
    generate3D env failsToStart "robot" true [] =
      (Threw "Failed to start 3D pipeline: 500", log) /\
    polls log = 0%nat /\
    schedule log = [] /\
    (forall code body,
       startPipeline failsToStart "robot" = Responded code body ->
       ok code = false ->
       "Failed to start 3D pipeline: 500" =
       ("Failed to start 3D pipeline: " ++ ofNumber code)%string).
Proof.
  apply (X15_failed_start_makes_no_poll env failsToStart "robot" true).
  reflexivity.
Defined.

Lemma X16_witness :
  schedule (snd (generate3D env doneAtThird "robot" true [])) =
  fixedSchedule "3f2a9c1e-77"
    (polls (snd (generate3D env doneAtThird "robot" true []))).
Proof.
  apply (X16_every_poll_follows_a_wait env doneAtThird "robot" true).
  apply started_sample. reflexivity.
Defined.

Lemma X17_witness :
  exists log,
    generate3D env doneAtThird "robot" true [] =
      (Returned (completedResult env (completedStatus "3f2a9c1e-77")), log) /\
    polls log = 3%nat.
Proof.
  apply (proj1 (X17_completes_at_nth_poll env doneAtThird "robot" true
                  "3f2a9c1e-77" (started_sample doneAtThird eq_refl)) 2%nat).
  - vm_compute. lia.
  - intros i Hi. exists 200, (pendingStatus "3f2a9c1e-77").
    destruct i as [|[|i]]; [repeat split|repeat split|lia].
  - split; reflexivity.
Defined.

Lemma X18_witness :
  exists log,
    generate3D env failsAtSecond "robot" true [] =
      (Threw (JsString.orElse (error (failedStatus "3f2a9c1e-77"))
                "Pipeline failed"), log) /\
    polls log = 2%nat /\
    (forall e, error (failedStatus "3f2a9c1e-77") = Some e -> e <> "" ->
       JsString.orElse (error (failedStatus "3f2a9c1e-77")) "Pipeline failed"
       = e) /\
    (error (failedStatus "3f2a9c1e-77") = None \/
     error (failedStatus "3f2a9c1e-77") = Some "" ->
       JsString.orElse (error (failedStatus "3f2a9c1e-77")) "Pipeline failed"
       = "Pipeline failed").
Proof.
  apply (X18_failed_status_message env failsAtSecond "robot" true
           "3f2a9c1e-77" 1%nat (failedStatus "3f2a9c1e-77")).
  - apply started_sample. reflexivity.
  - vm_compute. lia.
  - intros i Hi. exists 200, (pendingStatus "3f2a9c1e-77").
    destruct i as [|i]; [repeat split|lia].
  - reflexivity.
  - reflexivity.
Defined.




Lemma X26_witness :
  errorType
    (handleGenerate env alwaysPending flagging Mode3D "robot" "anime_action"
       [] false initialPage) = general /\
  errorMessage
    (handleGenerate env alwaysPending flagging Mode3D "robot" "anime_action"
       [] false initialPage) = Some "Pipeline timed out" /\
  generationStatus
    (handleGenerate env alwaysPending flagging Mode3D "robot" "anime_action"
       [] false initialPage) = failed.
Proof.
  apply (X26_timeout_shown_as_general unit env alwaysPending flagging "robot"
           "anime_action" [] false initialPage "3f2a9c1e-77").
  - reflexivity.
  - apply started_sample. reflexivity.
  - intros n _. exists 200, (pendingStatus "3f2a9c1e-77"). repeat split.
Defined.

End MoreAtSamples.

(** ** Rejections by kind of generation *)
Section Rejections.

Lemma prefix_app_plain (d : string) :
  allBelowLetters d = true ->
  forall n x, allLetters n = true ->
    String.prefix n (x ++ d) = String.prefix n x.
Proof.
  intros Hd. induction n as [|c n IH]; intros x Hn.
  - destruct x; [destruct d|]; reflexivity.
  - cbn [allLetters] in Hn. apply andb_prop in Hn as [Hc Hn].
    destruct x as [|b x]; cbn [append].
    + destruct d as [|b d]; [reflexivity|].
      cbn [String.prefix allBelowLetters] in *.
      apply andb_prop in Hd as [Hb _].
      destruct (ascii_dec c b) as [->|]; [|reflexivity].
      unfold belowLetters in Hb.
      apply Nat.ltb_lt in Hb. apply Nat.leb_le in Hc. lia.
    + cbn [String.prefix]. destruct (ascii_dec c b); [apply IH; exact Hn|].
      reflexivity.
Qed.

Lemma includes_plain (d n : string) :
  allBelowLetters d = true -> allLetters n = true -> n <> "" ->
  includes d n = false.
Proof.
  intros Hd Hn Hne. destruct n as [|c n]; [contradiction|].
  cbn [allLetters] in Hn. apply andb_prop in Hn as [Hc _].
  induction d as [|b d IH].
  - reflexivity.
  - cbn [allBelowLetters] in Hd. apply andb_prop in Hd as [Hb Hd].
    cbn [includes String.prefix]. rewrite (IH Hd).
    destruct (ascii_dec c b) as [->|]; [|reflexivity].
    unfold belowLetters in Hb.
    apply Nat.ltb_lt in Hb. apply Nat.leb_le in Hc. lia.
Qed.

(** A word of letters is found in a text followed by a printed number
    only if it is found in the text. *)
Lemma includes_app_plain (a d n : string) :
  allBelowLetters d = true -> allLetters n = true -> n <> "" ->
  includes (a ++ d) n = includes a n.
Proof.
  intros Hd Hn Hne. induction a as [|c a IH].
  - cbn [append]. rewrite (includes_plain d n Hd Hn Hne).
    destruct n; [contradiction|reflexivity].
  - cbn [append includes]. rewrite IH.
    change (String c (a ++ d)) with (String c a ++ d)%string.
    now rewrite (prefix_app_plain d Hd n (String c a) Hn).
Qed.

Lemma toLowerCase_app (a b : string) :
  toLowerCase (a ++ b) = (toLowerCase a ++ toLowerCase b)%string.
Proof.
  induction a as [|c a IH]; [reflexivity|].
  cbn [append toLowerCase]. now rewrite IH.
Qed.

Lemma toLowerCase_plain (d : string) :
  allBelowLetters d = true -> toLowerCase d = d.
Proof.
  induction d as [|c d IH]; intros H; [reflexivity|].
  cbn [allBelowLetters] in H. apply andb_prop in H as [Hc Hd].
  cbn [toLowerCase]. rewrite (IH Hd). f_equal.
  unfold lowerChar. unfold belowLetters in Hc. apply Nat.ltb_lt in Hc.
  destruct (Nat.leb_spec 65 (nat_of_ascii c)); [lia|reflexivity].
Qed.

Lemma ofNumber_plain (z : Z) : allBelowLetters (ofNumber z) = true.
Proof.
  unfold ofNumber.
  assert (H : forall d, allBelowLetters (NilEmpty.string_of_uint d) = true)
    by (induction d; cbn [NilEmpty.string_of_uint allBelowLetters];
        rewrite ?IHd; reflexivity).
  assert (H0 : forall d, allBelowLetters (NilZero.string_of_uint d) = true)
    by (intros d; destruct d; try apply H; reflexivity).
  destruct (Z.to_int z) as [d|d]; cbn [NilZero.string_of_int allBelowLetters].
  - apply H0.
  - rewrite H0. reflexivity.
Qed.

(** The error of a start that was turned down is filed under [general],
    whatever the status code. *)
Lemma classify_start_failure (code : Z) :
  classify ("Failed to start 3D pipeline: " ++ ofNumber code) = general.
Proof.
  unfold classify. rewrite toLowerCase_app.
  rewrite (toLowerCase_plain _ (ofNumber_plain code)).
  rewrite !includes_app_plain by (apply ofNumber_plain || reflexivity || discriminate).
  reflexivity.
Qed.

(** C9, as the code has it.  The sprite path: when the sprite backend
    answers a generation request with a non-2xx status and the JSON body
    [{"error": "content moderation flagged"}], [generateSprite] throws
    an error whose message is that text, and the [catch] branch of
    [handleGenerate] files the failure under [moderation] and leaves the
    page in the [failed] state; an error is filed there exactly when its
    lower-cased message contains [moderation] or [content].  The 3D path:
    [start3DPipeline] does not read the body of a non-2xx answer, so
    whatever that body says the error is [Failed to start 3D pipeline:
    <status>], and the page files it under [general] and shows that
    text. *)
Theorem C9_moderation_classified :
  forall (R : Type) (server : SpriteRequest -> Fetched (SpriteJson R))
         (prompt preset : string) (animations : option (list string))
         (fibo : option bool) (code : Z) (r : R),
    ok code = false ->
    server (spriteRequest prompt preset animations fibo) =
      Responded code
        (inr {| error_member := Some "content moderation flagged";
                result := r |}) ->
    generateSprite server prompt preset animations fibo =
      Threw "content moderation flagged" /\
    (forall pg,
       errorType (onCaught "content moderation flagged" pg) = moderation /\
       errorMessage (onCaught "content moderation flagged" pg) =
         Some moderationText /\
       generationStatus (onCaught "content moderation flagged" pg) = failed) /\
    (forall env backend selected useFibo pg,
       isBlank prompt = false ->
       animations = match selected with [] => None | _ => Some selected end ->
       fibo = Some useFibo ->
       errorType
         (handleGenerate env backend server ModeSprite prompt preset
            selected useFibo pg) = moderation /\
       generationStatus
         (handleGenerate env backend server ModeSprite prompt preset
            selected useFibo pg) = failed) /\
    (forall msg pg,
       errorType (onCaught msg pg) = moderation <->
       includes (toLowerCase msg) "moderation"
       || includes (toLowerCase msg) "content" = true) /\
    (forall env backend prompt3 onProgress code3 body,
       startPipeline backend prompt3 = Responded code3 body ->
       ok code3 = false ->
       fst (generate3D env backend prompt3 onProgress []) =
         Threw ("Failed to start 3D pipeline: " ++ ofNumber code3)%string /\
       (forall preset3 selected useFibo pg,
          isBlank prompt3 = false ->
          errorType
            (handleGenerate env backend server Mode3D prompt3 preset3
               selected useFibo pg) = general /\
          errorMessage
            (handleGenerate env backend server Mode3D prompt3 preset3
               selected useFibo pg) =
            Some ("Failed to start 3D pipeline: " ++ ofNumber code3)%string /\
          generationStatus
            (handleGenerate env backend server Mode3D prompt3 preset3
               selected useFibo pg) = failed)).
Proof.
  intros R server prompt preset animations fibo code r Hcode Hserver.
  assert (Hthrow : generateSprite server prompt preset animations fibo =
                   Threw "content moderation flagged").
  { unfold generateSprite. rewrite Hserver, Hcode. reflexivity. }
  split; [exact Hthrow|]. split; [intros pg; repeat split|].
  split; [|split].
  - intros env backend selected useFibo pg Hblank Ha Hf. subst animations fibo.
    rewrite (handleGenerate_sprite_caught R env backend server prompt preset
               selected useFibo pg _ Hblank Hthrow).
    split; reflexivity.
  - intros msg pg. cbn [onCaught errorType]. apply classify_moderation.
  - intros env backend prompt3 onProgress code3 body Hreply Hok.
    assert (Hstart : startOutcome backend prompt3 =
                     Threw ("Failed to start 3D pipeline: " ++ ofNumber code3)%string)
      by (unfold startOutcome; now rewrite Hreply, Hok).
    split.
    + now rewrite (generate3D_failed_start_log env backend prompt3 _ onProgress
                     Hstart).
    + intros preset3 selected useFibo pg Hblank.
      unfold handleGenerate. rewrite Hblank.
      rewrite (generate3D_failed_start_log env backend prompt3 _ true Hstart).
      cbn [fst onCaught errorType errorMessage generationStatus].
      rewrite classify_start_failure. repeat split.
Qed.

End Rejections.

Section RejectionsAtSamples.

Import Samples MoreSamples.

(** C9, refuted as stated: a 3D generation attempt whose start is
    answered with HTTP 400 and the body
    [{"error": "content moderation flagged"}] raises an error that does
    not carry that text, and the page files it under [general]. *)
Lemma C9_counterexample :
  startPipeline moderating3D "ninja warrior" =
    asTyped
      (Responded 400
         (inr {| error_member := Some "content moderation flagged";
                 result := {| start_job_id := ""; start_message := "" |} |})) /\
  ok 400 = false /\
  fst (generate3D env moderating3D "ninja warrior" true []) =
    Threw "Failed to start 3D pipeline: 400" /\
  errorType
    (handleGenerate env moderating3D flagging Mode3D "ninja warrior"
       "anime_action" [] false initialPage) = general /\
  errorMessage
    (handleGenerate env moderating3D flagging Mode3D "ninja warrior"
       "anime_action" [] false initialPage) =
    Some "Failed to start 3D pipeline: 400".
Proof.
  repeat split.
Qed.

Lemma C9_witness :
  generateSprite flagging "ninja warrior" "anime_action" None (Some false) =
    Threw "content moderation flagged" /\
  errorType
    (handleGenerate env oneHiccup flagging ModeSprite "ninja warrior"
       "anime_action" [] false initialPage) = moderation /\
  errorType
    (handleGenerate env moderating3D flagging Mode3D "ninja warrior"
       "anime_action" [] false initialPage) = general.
Proof.
  assert (Hcode : ok 400 = false) by reflexivity.
  destruct (C9_moderation_classified unit flagging "ninja warrior"
              "anime_action" None (Some false) 400 tt Hcode eq_refl)
    as (Hthrow & _ & Hpage & _ & H3D).
  split; [exact Hthrow|]. split.
  - apply (Hpage env oneHiccup [] false initialPage); reflexivity.
  - destruct (H3D env moderating3D "ninja warrior" true 400
                (inr {| start_job_id := ""; start_message := "" |})
                eq_refl Hcode) as (_ & Hgen).
    apply (Hgen "anime_action" [] false initialPage). reflexivity.
Defined.

End RejectionsAtSamples.
